(** * Customer panel: store reducer, form-field validation, mock API and hooks

    A shallow embedding of the client-side logic of the customer panel:
    the global store of [contexts/AppContext] (a reducer over a closed set of
    actions), the validation of [components/molecules/FormField], the mock
    backend of [api/mockApi], the data-fetching hooks of [hooks/index.ts] and
    the login handler of [pages/Login]. *)

From Stdlib Require Import ZArith NArith QArith String Ascii List Lia.
From Stdlib Require Import DecimalString.
From stdpp Require Import base decidable option list numbers gmap.
Import ListNotations.

Local Open Scope nat_scope.

(** ** JavaScript strings

    A JavaScript string is a sequence of UTF-16 code units. Strict equality
    [===] on strings is equality of these sequences, [.length] is their
    number, and an empty string is the only falsy one. *)

Module Js.

Abbreviation jsstring := (list N).

(** String literals of the source (all of them ASCII), written as Rocq
    strings. *)
Fixpoint lit (s : string) : jsstring :=
  match s with
  | EmptyString => []
  | String c s' => N_of_ascii c :: lit s'
  end.

(** Truthiness of a string: [if (s)], [s || t], [!s]. *)
Definition truthy (s : jsstring) : bool :=
  match s with [] => false | _ :: _ => true end.

(** [a || b] on strings. *)
Definition or_else (a b : jsstring) : jsstring :=
  if truthy a then a else b.

(** The code units [String.prototype.trim] strips: ECMAScript WhiteSpace
    and LineTerminator (all of them lie in the basic plane). *)
Definition isWhiteSpace (c : N) : bool :=
  ((9 <=? c) && (c <=? 13) || (c =? 32) || (c =? 160) || (c =? 5760)
   || (8192 <=? c) && (c <=? 8202) || (c =? 8232) || (c =? 8233)
   || (c =? 8239) || (c =? 8287) || (c =? 12288) || (c =? 65279))%N.

Fixpoint trimStart (s : jsstring) : jsstring :=
  match s with
  | [] => []
  | c :: s' => if isWhiteSpace c then trimStart s' else s
  end.

Definition trimEnd (s : jsstring) : jsstring :=
  rev (trimStart (rev s)).

Definition trim (s : jsstring) : jsstring := trimEnd (trimStart s).

(** Decimal rendering of an integer-valued number in a template literal. *)
Definition ofZ (z : Z) : jsstring :=
  lit (NilZero.string_of_int (Z.to_int z)).

End Js.
Import Js.

(** ** Data model (types/index.ts)

    Union-of-literal types ('open', 'domain', ...) are strings at run time
    and are kept as such; optional properties are options. A service object
    carries the properties of [Service] and, for domains, those of [Domain]
    ([resourceUsage], an untyped dictionary that no code populates, is left
    out). A user object may carry the [updatedAt] stamp that the profile
    update attaches. *)

Record Address := {
  a_id : jsstring; street : jsstring; city : jsstring;
  a_state : jsstring; zipCode : jsstring; country : jsstring }.

Record User := {
  u_id : jsstring; u_name : jsstring; email : jsstring;
  phone : option jsstring; company : option jsstring;
  twoFactorEnabled : bool;
  billingAddress : option Address; legalAddress : option Address;
  u_updatedAt : option jsstring }.

Record DNSRecord := {
  r_id : jsstring; r_type : jsstring; r_name : jsstring; r_value : jsstring;
  ttl : Z }.

Record Service := {
  s_id : jsstring; s_type : jsstring; s_name : jsstring; s_status : jsstring;
  expiryDate : jsstring; autoRenew : bool;
  planDetails : option jsstring;
  nameservers : option (list jsstring);
  dnsRecords : option (list DNSRecord);
  locked : option bool; eppCode : option jsstring }.

Record TicketMessage := {
  m_id : jsstring; sender : jsstring; m_message : jsstring;
  m_timestamp : jsstring }.

Record SupportTicket := {
  t_id : jsstring; category : jsstring; subject : jsstring; body : jsstring;
  t_status : jsstring; priority : jsstring;
  createdAt : jsstring; updatedAt : jsstring;
  messages : list TicketMessage;
  attachments : option (list jsstring) }.

Record Invoice := {
  i_id : jsstring; number : jsstring; amount : Q; currency : jsstring;
  i_status : jsstring; issuedDate : jsstring; dueDate : jsstring;
  pdfUrl : jsstring; i_services : list jsstring }.

Record Notification := {
  n_id : jsstring; n_type : jsstring; title : jsstring; n_message : jsstring;
  read : bool; n_timestamp : jsstring; actionUrl : option jsstring }.

Record PaymentMethod := {
  p_id : jsstring; p_type : jsstring; last4 : option jsstring;
  brand : option jsstring; expiryMonth : option Z; expiryYear : option Z;
  isDefault : bool }.

(** [{ ...n, read: true }] *)
Definition with_read (n : Notification) (b : bool) : Notification :=
  {| n_id := n_id n; n_type := n_type n; title := title n;
     n_message := n_message n; read := b; n_timestamp := n_timestamp n;
     actionUrl := actionUrl n |}.

(** [{ ...s, autoRenew }] *)
Definition with_autoRenew (s : Service) (b : bool) : Service :=
  {| s_id := s_id s; s_type := s_type s; s_name := s_name s;
     s_status := s_status s; expiryDate := expiryDate s; autoRenew := b;
     planDetails := planDetails s; nameservers := nameservers s;
     dnsRecords := dnsRecords s; locked := locked s; eppCode := eppCode s |}.

(** ** The global store (contexts/AppContext) *)

Record AppState := {
  currentUser : option User;
  notifications : list Notification;
  unreadNotificationCount : nat;
  services : list Service;
  supportTickets : list SupportTicket;
  loading : bool;
  error : option jsstring }.

Inductive AppAction :=
| SET_USER (payload : User)
| CLEAR_USER
| SET_NOTIFICATIONS (payload : list Notification)
| ADD_NOTIFICATION (payload : Notification)
| MARK_NOTIFICATION_READ (payload : jsstring)
| SET_SERVICES (payload : list Service)
| UPDATE_SERVICE (payload : Service)
| SET_SUPPORT_TICKETS (payload : list SupportTicket)
| ADD_SUPPORT_TICKET (payload : SupportTicket)
| UPDATE_SUPPORT_TICKET (payload : SupportTicket)
| SET_LOADING (payload : bool)
| SET_ERROR (payload : option jsstring).

Definition initialState : AppState :=
  {| currentUser := None; notifications := []; unreadNotificationCount := 0;
     services := []; supportTickets := []; loading := false; error := None |}.

(** [l.filter(n => !n.read).length] *)
Definition unreadOf (l : list Notification) : nat :=
  length (List.filter (fun n => negb (read n)) l).

Definition appReducer (state : AppState) (action : AppAction) : AppState :=
  match action with
  | SET_USER payload =>
      {| currentUser := Some payload;
         notifications := notifications state;
         unreadNotificationCount := unreadNotificationCount state;
         services := services state;
         supportTickets := supportTickets state;
         loading := loading state; error := error state |}
  | CLEAR_USER =>
      {| currentUser := None;
         notifications := notifications state;
         unreadNotificationCount := unreadNotificationCount state;
         services := services state;
         supportTickets := supportTickets state;
         loading := loading state; error := error state |}
  | SET_NOTIFICATIONS payload =>
      {| currentUser := currentUser state;
         notifications := payload;
         unreadNotificationCount := unreadOf payload;
         services := services state;
         supportTickets := supportTickets state;
         loading := loading state; error := error state |}
  | ADD_NOTIFICATION payload =>
      let newNotifications := payload :: notifications state in
      {| currentUser := currentUser state;
         notifications := newNotifications;
         unreadNotificationCount := unreadOf newNotifications;
         services := services state;
         supportTickets := supportTickets state;
         loading := loading state; error := error state |}
  | MARK_NOTIFICATION_READ payload =>
      let updatedNotifications :=
        map (fun n => if decide (n_id n = payload) then with_read n true else n)
            (notifications state) in
      {| currentUser := currentUser state;
         notifications := updatedNotifications;
         unreadNotificationCount := unreadOf updatedNotifications;
         services := services state;
         supportTickets := supportTickets state;
         loading := loading state; error := error state |}
  | SET_SERVICES payload =>
      {| currentUser := currentUser state;
         notifications := notifications state;
         unreadNotificationCount := unreadNotificationCount state;
         services := payload;
         supportTickets := supportTickets state;
         loading := loading state; error := error state |}
  | UPDATE_SERVICE payload =>
      {| currentUser := currentUser state;
         notifications := notifications state;
         unreadNotificationCount := unreadNotificationCount state;
         services :=
           map (fun s => if decide (s_id s = s_id payload) then payload else s)
               (services state);
         supportTickets := supportTickets state;
         loading := loading state; error := error state |}
  | SET_SUPPORT_TICKETS payload =>
      {| currentUser := currentUser state;
         notifications := notifications state;
         unreadNotificationCount := unreadNotificationCount state;
         services := services state;
         supportTickets := payload;
         loading := loading state; error := error state |}
  | ADD_SUPPORT_TICKET payload =>
      {| currentUser := currentUser state;
         notifications := notifications state;
         unreadNotificationCount := unreadNotificationCount state;
         services := services state;
         supportTickets := payload :: supportTickets state;
         loading := loading state; error := error state |}
  | UPDATE_SUPPORT_TICKET payload =>
      {| currentUser := currentUser state;
         notifications := notifications state;
         unreadNotificationCount := unreadNotificationCount state;
         services := services state;
         supportTickets :=
           map (fun t => if decide (t_id t = t_id payload) then payload else t)
               (supportTickets state);
         loading := loading state; error := error state |}
  | SET_LOADING payload =>
      {| currentUser := currentUser state;
         notifications := notifications state;
         unreadNotificationCount := unreadNotificationCount state;
         services := services state;
         supportTickets := supportTickets state;
         loading := payload; error := error state |}
  | SET_ERROR payload =>
      {| currentUser := currentUser state;
         notifications := notifications state;
         unreadNotificationCount := unreadNotificationCount state;
         services := services state;
         supportTickets := supportTickets state;
         loading := loading state; error := payload |}
  end.

(** The number of entries of a notification list whose read flag is false,
    counted entry by entry. *)
Fixpoint countUnread (l : list Notification) : nat :=
  match l with
  | [] => 0
  | n :: l' => (if read n then 0 else 1) + countUnread l'
  end.

(** The store invariant: the stored counter is the number of unread
    entries. *)
Definition invariant (s : AppState) : Prop :=
  unreadNotificationCount s = countUnread (notifications s).

(** Helper functions of [AppProvider]: each dispatches into the reducer.
    The random id and the clock readings are inputs. *)

Definition setUser (user : User) (state : AppState) : AppState :=
  appReducer state (SET_USER user).

(** [logout] clears the user and the user-specific collections. *)
Definition logout (state : AppState) : AppState :=
  let state := appReducer state CLEAR_USER in
  let state := appReducer state (SET_NOTIFICATIONS []) in
  let state := appReducer state (SET_SERVICES []) in
  appReducer state (SET_SUPPORT_TICKETS []).

(** [{ ...notification, id: <random>, timestamp: <now> }] *)
Definition addNotification (randomId now : jsstring)
    (notification : Notification) (state : AppState) : AppState :=
  let newNotification :=
    {| n_id := randomId; n_type := n_type notification;
       title := title notification; n_message := n_message notification;
       read := read notification; n_timestamp := now;
       actionUrl := actionUrl notification |} in
  appReducer state (ADD_NOTIFICATION newNotification).

Definition markNotificationRead (id : jsstring) (state : AppState) : AppState :=
  appReducer state (MARK_NOTIFICATION_READ id).

Definition updateService (service : Service) (state : AppState) : AppState :=
  appReducer state (UPDATE_SERVICE service).

(** [{ ...ticket, id: <random>, createdAt: <now>, updatedAt: <now> }] *)
Definition addSupportTicket (randomId now1 now2 : jsstring)
    (ticket : SupportTicket) (state : AppState) : AppState :=
  let newTicket :=
    {| t_id := randomId; category := category ticket;
       subject := subject ticket; body := body ticket;
       t_status := t_status ticket; priority := priority ticket;
       createdAt := now1; updatedAt := now2;
       messages := messages ticket; attachments := attachments ticket |} in
  appReducer state (ADD_SUPPORT_TICKET newTicket).

(** ** Validation-augmented form field (components/molecules/FormField) *)

Module FormField.

(** [pattern] is a [RegExp], used only through [test]; [custom] returns a
    message or [null]. Rule numbers are integer valued. *)
Record ValidationRules := {
  required : option bool;
  minLength : option Z;
  maxLength : option Z;
  pattern : option (jsstring -> bool);
  custom : option (jsstring -> option jsstring) }.

Record Props := {
  name : jsstring;
  label : option jsstring;
  value : jsstring;
  validationRules : option ValidationRules;
  externalError : option jsstring }.

Record State := { internalError : jsstring; touched : bool }.

(** [useState('')], [useState(false)] *)
Definition initial : State := {| internalError := []; touched := false |}.

(** Truthiness of optional properties. *)
Definition truthyBool (b : option bool) : bool :=
  match b with Some true => true | _ => false end.

Definition truthyString (s : option jsstring) : bool :=
  match s with Some s => truthy s | None => false end.

(** [inputProps.label || name] *)
Definition labelOrName (p : Props) : jsstring :=
  match label p with
  | Some l => or_else l (name p)
  | None => name p
  end.

Definition validate (p : Props) (inputValue : jsstring) : jsstring :=
  match validationRules p with
  | None => []
  | Some rules =>
    if truthyBool (required rules) && negb (truthy (trim inputValue)) then
      labelOrName p ++ lit " is required"
    else if match minLength rules with
            | Some m => negb (m =? 0)%Z && (Z.of_nat (length inputValue) <? m)%Z
            | None => false
            end then
      labelOrName p ++ lit " must be at least "
        ++ ofZ (default 0%Z (minLength rules)) ++ lit " characters"
    else if match maxLength rules with
            | Some m => negb (m =? 0)%Z && (m <? Z.of_nat (length inputValue))%Z
            | None => false
            end then
      labelOrName p ++ lit " must be no more than "
        ++ ofZ (default 0%Z (maxLength rules)) ++ lit " characters"
    else if match pattern rules with
            | Some test => truthy inputValue && negb (test inputValue)
            | None => false
            end then
      labelOrName p ++ lit " format is invalid"
    else
      match custom rules with
      | Some f =>
          match f inputValue with
          | Some customError =>
              if truthy customError then customError else []
          | None => []
          end
      | None => []
      end
  end.

(** [handleChange]: the parent's [onChange] owns the value; the field
    revalidates only once touched. *)
Definition handleChange (p : Props) (st : State) (newValue : jsstring) : State :=
  if touched st then
    {| internalError := validate p newValue; touched := touched st |}
  else st.

Definition handleBlur (p : Props) (st : State) : State :=
  {| internalError := validate p (value p); touched := true |}.

(** [externalError || (touched ? internalError : '')] *)
Definition currentError (p : Props) (st : State) : jsstring :=
  if truthyString (externalError p) then default [] (externalError p)
  else if touched st then internalError st else [].

Definition isSuccess (p : Props) (st : State) : bool :=
  touched st && negb (truthy (currentError p st))
  && (0 <? length (value p)).

(** The events a mounted field receives, each with the props of the
    render in which it fires. *)
Inductive Event :=
| Change (p : Props) (newValue : jsstring)
| Blur (p : Props).

Definition step (st : State) (e : Event) : State :=
  match e with
  | Change p v => handleChange p st v
  | Blur p => handleBlur p st
  end.

Definition run (st : State) (es : list Event) : State :=
  fold_left step es st.

Definition isBlur (e : Event) : bool :=
  match e with Blur _ => true | Change _ _ => false end.

(** A value made of white space only (the empty string included). *)
Definition whitespaceOnly (v : jsstring) : Prop :=
  Forall (fun c => isWhiteSpace c = true) v.

End FormField.

(** ** Mock API client (api/mockApi)

    A call either resolves with a response object or rejects with an
    [Error] carrying a message. The artificial delay has no effect on the
    value and is not represented. [Math.random()] yields a double in
    [[0,1)]; doubles compare as the rationals they denote, so a draw is a
    rational. *)

Inductive Outcome (A : Type) :=
| Returned (response : A)
| Threw (errorMessage : jsstring).
Arguments Returned {A} response.
Arguments Threw {A} errorMessage.

(** Response objects with a [data] property: [{ success, data }] and
    [{ success, data, message }]. *)
Record Response (D : Type) := {
  success : bool; data : D; message : option jsstring }.
Arguments success {D} r.
Arguments data {D} r.
Arguments message {D} r.

(** [{ success, message }] *)
Record LogoutResponse := { lo_success : bool; lo_message : jsstring }.

Record LoginData := { token : jsstring; user : User }.

(** The two object shapes [login] builds. *)
Inductive LoginResponse :=
| LoginOk (success : bool) (data : LoginData)
| LoginRejected (success : bool) (message : jsstring) (errors : list jsstring).

(** The own properties of a response object, as far as the API surface
    speaks of them. *)
Record Shape := {
  sh_success : bool; has_data : bool; has_message : bool; has_errors : bool }.

Definition shapeOfResponse {D} (r : Response D) : Shape :=
  {| sh_success := success r; has_data := true;
     has_message := bool_decide (is_Some (message r)); has_errors := false |}.

Definition shapeOfLogout (r : LogoutResponse) : Shape :=
  {| sh_success := lo_success r; has_data := false;
     has_message := true; has_errors := false |}.

Definition shapeOfLogin (r : LoginResponse) : Shape :=
  match r with
  | LoginOk s _ =>
      {| sh_success := s; has_data := true;
         has_message := false; has_errors := false |}
  | LoginRejected s _ _ =>
      {| sh_success := s; has_data := false;
         has_message := true; has_errors := true |}
  end.

Definition Qltb (x y : Q) : bool := (Qnum x * QDen y <? Qnum y * QDen x)%Z.

(** The input of [createSupportTicket] and of the [createTicket] hook:
    a ticket without id, stamps and messages ([status] and [priority] may be
    missing on the untyped path from the form). *)
Record TicketData := {
  d_category : jsstring; d_subject : jsstring; d_body : jsstring;
  d_status : option jsstring; d_priority : option jsstring;
  d_attachments : option (list jsstring) }.

Record AutoRenewData := {
  ar_id : jsstring; ar_autoRenew : bool; ar_updatedAt : jsstring }.

Record ReadData := { rd_id : jsstring; rd_read : bool }.

Module MockApi.

(** [simulateRequest(data)] resolves with [data]; [simulateError(message)]
    rejects with [new Error(message)]. *)
Definition simulateRequest {T} (data : T) : Outcome T := Returned data.

Definition simulateError {T} (message : jsstring) : Outcome T := Threw message.

(** [Math.random() < chance], on the draw [Math.random()] returned. *)
Definition shouldSimulateError (draw chance : Q) : bool := Qltb draw chance.

(** The doubles written [0.1] (the default of [chance]) and [0.05]. *)
Definition defaultChance : Q := 3602879701896397 # 36028797018963968.
Definition loginChance : Q := 3602879701896397 # 72057594037927936.

(** The endpoints. Each body is written over the probability [chance] it
    hands to [shouldSimulateError]; the source fixes it by a literal (or by
    the default), which gives the definitions without the [_at] suffix.
    Besides the draw, the clock readings and the random id are inputs. *)

Definition johnDoe (billing legal : option Address) : User :=
  {| u_id := lit "1"; u_name := lit "John Doe";
     email := lit "john.doe@example.com";
     phone := Some (lit "+1 (555) 123-4567");
     company := Some (lit "Example Corp");
     twoFactorEnabled := true;
     billingAddress := billing; legalAddress := legal;
     u_updatedAt := None |}.

Definition mainStreet (id : jsstring) : Address :=
  {| a_id := id; street := lit "123 Main St"; city := lit "New York";
     a_state := lit "NY"; zipCode := lit "10001"; country := lit "US" |}.

Definition login_at (chance draw : Q) (nowMs : Z) (email password : jsstring)
    : Outcome LoginResponse :=
  if shouldSimulateError draw chance then
    simulateError (lit "Network error. Please try again.")
  else if bool_decide (email = lit "john.doe@example.com")
          && bool_decide (password = lit "password123") then
    simulateRequest
      (LoginOk true
         {| token := lit "mock-jwt-token-" ++ ofZ nowMs;
            user := johnDoe None None |})
  else
    simulateRequest
      (LoginRejected false (lit "Invalid email or password")
         [lit "Invalid credentials"]).

Definition logout : Outcome LogoutResponse :=
  simulateRequest
    {| lo_success := true; lo_message := lit "Logged out successfully" |}.

Definition getProfile_at (chance draw : Q) : Outcome (Response User) :=
  if shouldSimulateError draw chance then
    simulateError (lit "Failed to load profile")
  else
    simulateRequest
      {| success := true;
         data := johnDoe (Some (mainStreet (lit "1")))
                         (Some (mainStreet (lit "2")));
         message := None |}.

(** [{ ...profileData, id: '1', updatedAt: <now> }] *)
Definition updateProfile_at (chance draw : Q) (now : jsstring)
    (profileData : User) : Outcome (Response User) :=
  if shouldSimulateError draw chance then
    simulateError (lit "Failed to update profile")
  else
    simulateRequest
      {| success := true;
         data :=
           {| u_id := lit "1"; u_name := u_name profileData;
              email := email profileData; phone := phone profileData;
              company := company profileData;
              twoFactorEnabled := twoFactorEnabled profileData;
              billingAddress := billingAddress profileData;
              legalAddress := legalAddress profileData;
              u_updatedAt := Some now |};
         message := Some (lit "Profile updated successfully") |}.

Definition mockService (id type name expiry : jsstring) (renew : bool)
    (plan : option jsstring) (ns : option (list jsstring))
    (lock : option bool) : Service :=
  {| s_id := id; s_type := type; s_name := name; s_status := lit "active";
     expiryDate := expiry; autoRenew := renew; planDetails := plan;
     nameservers := ns; dnsRecords := None; locked := lock;
     eppCode := None |}.

Definition mockServices : list Service :=
  [ mockService (lit "1") (lit "domain") (lit "example.com")
      (lit "2025-12-15T00:00:00Z") true None
      (Some [lit "ns1.example.com"; lit "ns2.example.com"]) (Some true);
    mockService (lit "2") (lit "domain") (lit "mysite.net")
      (lit "2025-09-02T00:00:00Z") false None
      (Some [lit "ns1.provider.com"; lit "ns2.provider.com"]) (Some false);
    mockService (lit "3") (lit "hosting") (lit "Web Hosting Pro")
      (lit "2025-08-28T00:00:00Z") true
      (Some (lit "Pro Plan - 10GB Storage, Unlimited Bandwidth")) None None;
    mockService (lit "4") (lit "ssl") (lit "SSL Certificate")
      (lit "2025-11-10T00:00:00Z") true
      (Some (lit "Standard SSL - Protects example.com and www.example.com"))
      None None ].

Definition getServices_at (chance draw : Q) : Outcome (Response (list Service)) :=
  if shouldSimulateError draw chance then
    simulateError (lit "Failed to load services")
  else
    simulateRequest
      {| success := true; data := mockServices; message := None |}.

Definition toggleAutoRenew_at (chance draw : Q) (now : jsstring)
    (serviceId : jsstring) (autoRenew : bool)
    : Outcome (Response AutoRenewData) :=
  if shouldSimulateError draw chance then
    simulateError (lit "Failed to update auto-renewal setting")
  else
    simulateRequest
      {| success := true;
         data := {| ar_id := serviceId; ar_autoRenew := autoRenew;
                    ar_updatedAt := now |};
         message :=
           Some (lit "Auto-renewal "
                 ++ (if autoRenew then lit "enabled" else lit "disabled")
                 ++ lit " successfully") |}.

Definition mockMessage (id who text stamp : jsstring) : TicketMessage :=
  {| m_id := id; sender := who; m_message := text; m_timestamp := stamp |}.

Definition mockTickets : list SupportTicket :=
  [ {| t_id := lit "12345"; category := lit "Technical";
       subject := lit "DNS configuration issue";
       body := lit "Having trouble configuring DNS records for my domain.";
       t_status := lit "open"; priority := lit "medium";
       createdAt := lit "2025-07-24T10:30:00Z";
       updatedAt := lit "2025-07-24T14:15:00Z";
       messages :=
         [ mockMessage (lit "1") (lit "user")
             (lit "Having trouble configuring DNS records for my domain.")
             (lit "2025-07-24T10:30:00Z");
           mockMessage (lit "2") (lit "support")
             (lit "Thank you for contacting us. We'll help you with the DNS configuration.")
             (lit "2025-07-24T14:15:00Z") ];
       attachments := None |};
    {| t_id := lit "12346"; category := lit "Billing";
       subject := lit "Payment method update";
       body := lit "Need to update my credit card information.";
       t_status := lit "resolved"; priority := lit "low";
       createdAt := lit "2025-07-22T09:00:00Z";
       updatedAt := lit "2025-07-23T16:30:00Z";
       messages :=
         [ mockMessage (lit "3") (lit "user")
             (lit "Need to update my credit card information.")
             (lit "2025-07-22T09:00:00Z");
           mockMessage (lit "4") (lit "support")
             (lit "I've sent you a secure link to update your payment method.")
             (lit "2025-07-23T16:30:00Z") ];
       attachments := None |} ].

Definition getSupportTickets_at (chance draw : Q)
    : Outcome (Response (list SupportTicket)) :=
  if shouldSimulateError draw chance then
    simulateError (lit "Failed to load support tickets")
  else
    simulateRequest
      {| success := true; data := mockTickets; message := None |}.

(** [randomId] is [Math.random().toString(36).substr(2, 5).toUpperCase()];
    [now1], [now2], [now3] are the three readings of the clock. *)
Definition createSupportTicket_at (chance draw : Q)
    (randomId now1 now2 now3 : jsstring) (ticketData : TicketData)
    : Outcome (Response SupportTicket) :=
  if shouldSimulateError draw chance then
    simulateError (lit "Failed to create support ticket")
  else
    let newTicket :=
      {| t_id := randomId;
         category := d_category ticketData;
         subject := d_subject ticketData;
         body := d_body ticketData;
         t_status := lit "open";
         priority :=
           match d_priority ticketData with
           | Some p => or_else p (lit "medium")
           | None => lit "medium"
           end;
         createdAt := now1;
         updatedAt := now2;
         messages :=
           [ {| m_id := lit "1"; sender := lit "user";
                m_message := d_body ticketData; m_timestamp := now3 |} ];
         attachments := d_attachments ticketData |} in
    simulateRequest
      {| success := true; data := newTicket;
         message := Some (lit "Support ticket created successfully") |}.

Definition mockNotifications : list Notification :=
  [ {| n_id := lit "1"; n_type := lit "renewal";
       title := lit "Domain Renewal Reminder";
       n_message := lit "Your domain example.com expires in 21 days";
       read := false; n_timestamp := lit "2025-07-25T08:00:00Z";
       actionUrl := Some (lit "/services/domains/1") |};
    {| n_id := lit "2"; n_type := lit "system";
       title := lit "Support Ticket Update";
       n_message := lit "Your support ticket #12345 has been updated";
       read := false; n_timestamp := lit "2025-07-24T14:15:00Z";
       actionUrl := Some (lit "/support/tickets/12345") |};
    {| n_id := lit "3"; n_type := lit "payment";
       title := lit "Payment Processed";
       n_message := lit "Payment of $89.99 has been processed successfully";
       read := true; n_timestamp := lit "2025-07-20T12:00:00Z";
       actionUrl := None |} ].

Definition getNotifications_at (chance draw : Q)
    : Outcome (Response (list Notification)) :=
  if shouldSimulateError draw chance then
    simulateError (lit "Failed to load notifications")
  else
    simulateRequest
      {| success := true; data := mockNotifications; message := None |}.

Definition markNotificationRead (notificationId : jsstring)
    : Outcome (Response ReadData) :=
  simulateRequest
    {| success := true;
       data := {| rd_id := notificationId; rd_read := true |};
       message := Some (lit "Notification marked as read") |}.

Definition mockInvoices : list Invoice :=
  [ {| i_id := lit "INV-2025-001"; number := lit "INV-2025-001";
       amount := 8999 # 100; currency := lit "USD"; i_status := lit "paid";
       issuedDate := lit "2025-07-01T00:00:00Z";
       dueDate := lit "2025-07-15T00:00:00Z";
       pdfUrl := lit "/api/invoices/INV-2025-001.pdf";
       i_services :=
         [lit "example.com - Domain Registration"; lit "Web Hosting Pro"] |};
    {| i_id := lit "INV-2025-002"; number := lit "INV-2025-002";
       amount := 12999 # 100; currency := lit "USD"; i_status := lit "pending";
       issuedDate := lit "2025-07-20T00:00:00Z";
       dueDate := lit "2025-08-05T00:00:00Z";
       pdfUrl := lit "/api/invoices/INV-2025-002.pdf";
       i_services := [lit "SSL Certificate"; lit "Domain Transfer"] |} ].

Definition getInvoices_at (chance draw : Q) : Outcome (Response (list Invoice)) :=
  if shouldSimulateError draw chance then
    simulateError (lit "Failed to load invoices")
  else
    simulateRequest
      {| success := true; data := mockInvoices; message := None |}.

Definition mockPaymentMethods : list PaymentMethod :=
  [ {| p_id := lit "1"; p_type := lit "credit_card";
       last4 := Some (lit "4242"); brand := Some (lit "Visa");
       expiryMonth := Some 12%Z; expiryYear := Some 2027%Z;
       isDefault := true |};
    {| p_id := lit "2"; p_type := lit "credit_card";
       last4 := Some (lit "5555"); brand := Some (lit "Mastercard");
       expiryMonth := Some 8%Z; expiryYear := Some 2026%Z;
       isDefault := false |} ].

Definition getPaymentMethods_at (chance draw : Q)
    : Outcome (Response (list PaymentMethod)) :=
  if shouldSimulateError draw chance then
    simulateError (lit "Failed to load payment methods")
  else
    simulateRequest
      {| success := true; data := mockPaymentMethods; message := None |}.

Definition mockDnsRecords : list DNSRecord :=
  [ {| r_id := lit "1"; r_type := lit "A"; r_name := lit "@";
       r_value := lit "192.168.1.1"; ttl := 3600 |};
    {| r_id := lit "2"; r_type := lit "CNAME"; r_name := lit "www";
       r_value := lit "example.com"; ttl := 3600 |};
    {| r_id := lit "3"; r_type := lit "MX"; r_name := lit "@";
       r_value := lit "10 mail.example.com"; ttl := 3600 |} ].

Definition getDnsRecords_at (chance draw : Q) (_domainId : jsstring)
    : Outcome (Response (list DNSRecord)) :=
  if shouldSimulateError draw chance then
    simulateError (lit "Failed to load DNS records")
  else
    simulateRequest
      {| success := true; data := mockDnsRecords; message := None |}.

(** The endpoints as the source configures them. *)
Definition login := login_at loginChance.
Definition getProfile := getProfile_at defaultChance.
Definition updateProfile := updateProfile_at defaultChance.
Definition getServices := getServices_at defaultChance.
Definition toggleAutoRenew := toggleAutoRenew_at defaultChance.
Definition getSupportTickets := getSupportTickets_at defaultChance.
Definition createSupportTicket := createSupportTicket_at defaultChance.
Definition getNotifications := getNotifications_at defaultChance.
Definition getInvoices := getInvoices_at defaultChance.
Definition getPaymentMethods := getPaymentMethods_at defaultChance.
Definition getDnsRecords := getDnsRecords_at defaultChance.

End MockApi.

(** ** Data-fetching hooks (hooks/index.ts)

    Every hook keeps a [loading] flag and an [error] string of its own; the
    store is reached through the context. An asynchronous hook function is
    the sequence of its state updates; the awaited API outcome is an
    argument of the [_on] definitions, and the definitions without suffix
    compose them with the mock API as the source does. Every rejection the
    API produces is an [Error], so the [catch] blocks take its message. *)

Record HookState := { h_loading : bool; h_error : option jsstring }.

Definition setLoading (b : bool) (h : HookState) : HookState :=
  {| h_loading := b; h_error := h_error h |}.

Definition setError (e : option jsstring) (h : HookState) : HookState :=
  {| h_loading := h_loading h; h_error := e |}.

Module useProfile.

Definition loadProfile_on (api : Outcome (Response User))
    (store : AppState) (h : HookState) : AppState * HookState :=
  let h := setLoading true h in
  let h := setError None h in
  let '(store, h) :=
    match api with
    | Returned response =>
        if success response then (setUser (data response) store, h)
        else (store, setError (Some (lit "Failed to load profile")) h)
    | Threw m => (store, setError (Some m) h)
    end in
  (store, setLoading false h).

Definition updateProfile_on (api : Outcome (Response User))
    (store : AppState) (h : HookState)
    : AppState * HookState * Outcome (Response User) :=
  let h := setLoading true h in
  let h := setError None h in
  let '(store, h, result) :=
    match api with
    | Returned response =>
        if success response then
          (setUser (data response) store, h, Returned response)
        else
          (store, setError (Some (lit "Failed to update profile")) h,
           Returned response)
    | Threw m => (store, setError (Some m) h, Threw m)
    end in
  (store, setLoading false h, result).

Definition loadProfile (draw : Q) := loadProfile_on (MockApi.getProfile draw).

Definition updateProfile (draw : Q) (now : jsstring) (profileData : User) :=
  updateProfile_on (MockApi.updateProfile draw now profileData).

End useProfile.

Module useServices.

Definition loadServices_on (api : Outcome (Response (list Service)))
    (store : AppState) (h : HookState) : AppState * HookState :=
  let h := setLoading true h in
  let h := setError None h in
  let '(store, h) :=
    match api with
    | Returned response =>
        if success response then
          (appReducer store (SET_SERVICES (data response)), h)
        else (store, setError (Some (lit "Failed to load services")) h)
    | Threw m => (store, setError (Some m) h)
    end in
  (store, setLoading false h).

(** [rendered] is the store state the hook closed over when it was
    rendered ([state.services.find]); [store] is the state the dispatch
    acts on. *)
Definition toggleAutoRenew_on (api : Outcome (Response AutoRenewData))
    (serviceId : jsstring) (autoRenew : bool)
    (rendered store : AppState) (h : HookState)
    : AppState * HookState * Outcome (Response AutoRenewData) :=
  match api with
  | Returned response =>
      if success response then
        let updatedService :=
          List.find (fun s => bool_decide (s_id s = serviceId))
                    (services rendered) in
        let store :=
          match updatedService with
          | Some s =>
              appReducer store (UPDATE_SERVICE (with_autoRenew s autoRenew))
          | None => store
          end in
        (store, h, Returned response)
      else
        let m := lit "Failed to update auto-renewal setting" in
        (store, setError (Some m) h, Threw m)
  | Threw m => (store, setError (Some m) h, Threw m)
  end.


Definition toggleAutoRenew (draw : Q) (now : jsstring)
    (serviceId : jsstring) (autoRenew : bool) :=
  toggleAutoRenew_on (MockApi.toggleAutoRenew draw now serviceId autoRenew)
                     serviceId autoRenew.

End useServices.

Module useSupportTickets.

Definition loadTickets_on (api : Outcome (Response (list SupportTicket)))
    (store : AppState) (h : HookState) : AppState * HookState :=
  let h := setLoading true h in
  let h := setError None h in
  let '(store, h) :=
    match api with
    | Returned response =>
        if success response then
          (appReducer store (SET_SUPPORT_TICKETS (data response)), h)
        else (store, setError (Some (lit "Failed to load support tickets")) h)
    | Threw m => (store, setError (Some m) h)
    end in
  (store, setLoading false h).

(** [randomId2], [now4], [now5]: the id and the stamps [addSupportTicket]
    draws when it stores the ticket. *)
Definition createTicket_on (api : Outcome (Response SupportTicket))
    (randomId2 now4 now5 : jsstring)
    (store : AppState) (h : HookState)
    : AppState * HookState * Outcome (Response SupportTicket) :=
  let h := setLoading true h in
  let h := setError None h in
  let '(store, h, result) :=
    match api with
    | Returned response =>
        if success response then
          (addSupportTicket randomId2 now4 now5 (data response) store, h,
           Returned response)
        else
          (store, setError (Some (lit "Failed to create support ticket")) h,
           Returned response)
    | Threw m => (store, setError (Some m) h, Threw m)
    end in
  (store, setLoading false h, result).

Definition loadTickets (draw : Q) :=
  loadTickets_on (MockApi.getSupportTickets draw).

Definition createTicket (draw : Q) (randomId now1 now2 now3 : jsstring)
    (ticketData : TicketData) :=
  createTicket_on
    (MockApi.createSupportTicket draw randomId now1 now2 now3 ticketData).

End useSupportTickets.

Module useNotifications.

Definition loadNotifications_on (api : Outcome (Response (list Notification)))
    (store : AppState) (h : HookState) : AppState * HookState :=
  let h := setLoading true h in
  let h := setError None h in
  let '(store, h) :=
    match api with
    | Returned response =>
        if success response then
          (appReducer store (SET_NOTIFICATIONS (data response)), h)
        else (store, setError (Some (lit "Failed to load notifications")) h)
    | Threw m => (store, setError (Some m) h)
    end in
  (store, setLoading false h).

Definition markAsRead_on (api : Outcome (Response ReadData))
    (notificationId : jsstring) (store : AppState) (h : HookState)
    : AppState * HookState * Outcome (Response ReadData) :=
  match api with
  | Returned response =>
      if success response then
        (markNotificationRead notificationId store, h, Returned response)
      else
        let m := lit "Failed to mark notification as read" in
        (store, setError (Some m) h, Threw m)
  | Threw m => (store, setError (Some m) h, Threw m)
  end.

Definition loadNotifications (draw : Q) :=
  loadNotifications_on (MockApi.getNotifications draw).

Definition markAsRead (notificationId : jsstring) :=
  markAsRead_on (MockApi.markNotificationRead notificationId) notificationId.

End useNotifications.

Module useBilling.

Record State := {
  invoices : list Invoice;
  paymentMethods : list PaymentMethod;
  hook : HookState }.

Definition onHook (f : HookState -> HookState) (st : State) : State :=
  {| invoices := invoices st; paymentMethods := paymentMethods st;
     hook := f (hook st) |}.

Definition setInvoices (l : list Invoice) (st : State) : State :=
  {| invoices := l; paymentMethods := paymentMethods st; hook := hook st |}.

Definition setPaymentMethods (l : list PaymentMethod) (st : State) : State :=
  {| invoices := invoices st; paymentMethods := l; hook := hook st |}.

(** [useState([])], [useState([])], [useState(false)], [useState(null)] *)
Definition initial : State :=
  {| invoices := []; paymentMethods := [];
     hook := {| h_loading := false; h_error := None |} |}.

Definition loadInvoices_on (api : Outcome (Response (list Invoice)))
    (st : State) : State :=
  let st := onHook (setLoading true) st in
  let st := onHook (setError None) st in
  let st :=
    match api with
    | Returned response =>
        if success response then setInvoices (data response) st
        else onHook (setError (Some (lit "Failed to load invoices"))) st
    | Threw m => onHook (setError (Some m)) st
    end in
  onHook (setLoading false) st.

Definition loadPaymentMethods_on (api : Outcome (Response (list PaymentMethod)))
    (st : State) : State :=
  let st := onHook (setLoading true) st in
  let st := onHook (setError None) st in
  let st :=
    match api with
    | Returned response =>
        if success response then setPaymentMethods (data response) st
        else onHook (setError (Some (lit "Failed to load payment methods"))) st
    | Threw m => onHook (setError (Some m)) st
    end in
  onHook (setLoading false) st.

Definition loadInvoices (draw : Q) := loadInvoices_on (MockApi.getInvoices draw).

Definition loadPaymentMethods (draw : Q) :=
  loadPaymentMethods_on (MockApi.getPaymentMethods draw).

End useBilling.

Module useDNS.

Record State := { records : list DNSRecord; hook : HookState }.

Definition onHook (f : HookState -> HookState) (st : State) : State :=
  {| records := records st; hook := f (hook st) |}.

Definition setDnsRecords (l : list DNSRecord) (st : State) : State :=
  {| records := l; hook := hook st |}.

Definition initial : State :=
  {| records := []; hook := {| h_loading := false; h_error := None |} |}.

Definition loadDnsRecords_on (api : Outcome (Response (list DNSRecord)))
    (st : State) : State :=
  let st := onHook (setLoading true) st in
  let st := onHook (setError None) st in
  let st :=
    match api with
    | Returned response =>
        if success response then setDnsRecords (data response) st
        else onHook (setError (Some (lit "Failed to load DNS records"))) st
    | Threw m => onHook (setError (Some m)) st
    end in
  onHook (setLoading false) st.

Definition loadDnsRecords (draw : Q) (id : jsstring) :=
  loadDnsRecords_on (MockApi.getDnsRecords draw id).

End useDNS.

(** ** Login page (pages/Login) *)

Module Login.

Record State := {
  formEmail : jsstring; formPassword : jsstring;
  l_loading : bool; l_error : jsstring }.

Definition mockUser : User :=
  {| u_id := lit "1"; u_name := lit "John Doe";
     email := lit "john.doe@example.com";
     phone := Some (lit "+1 (555) 123-4567");
     company := Some (lit "Example Corp");
     twoFactorEnabled := true;
     billingAddress :=
       Some {| a_id := lit "1"; street := lit "123 Main St";
               city := lit "New York"; a_state := lit "NY";
               zipCode := lit "10001"; country := lit "US" |};
     legalAddress := None; u_updatedAt := None |}.

(** [location] is the current route; [navigate] replaces it. The awaited
    timer cannot reject and neither [setUser] nor [navigate] throws, so the
    [catch] block of the source is never entered. *)
Definition handleLogin (page : State) (store : AppState) (location : jsstring)
    : State * AppState * jsstring :=
  let page :=
    {| formEmail := formEmail page; formPassword := formPassword page;
       l_loading := true; l_error := l_error page |} in
  let page :=
    {| formEmail := formEmail page; formPassword := formPassword page;
       l_loading := l_loading page; l_error := [] |} in
  let '(page, store, location) :=
    if bool_decide (formEmail page = lit "john.doe@example.com")
       && bool_decide (formPassword page = lit "password123") then
      (page, setUser mockUser store, lit "/dashboard")
    else
      ({| formEmail := formEmail page; formPassword := formPassword page;
          l_loading := l_loading page;
          l_error := lit "Invalid email or password. Please try again." |},
       store, location) in
  ({| formEmail := formEmail page; formPassword := formPassword page;
      l_loading := false; l_error := l_error page |},
   store, location).

(** [s] begins with [prefix]. *)
Fixpoint startsWith (prefix s : jsstring) : bool :=
  match prefix, s with
  | [], _ => true
  | c :: prefix', d :: s' => (c =? d)%N && startsWith prefix' s'
  | _ :: _, [] => false
  end.

(** [handleFieldChange]: the two fields of the form are named "email" and
    "password"; a change under any other name would add a property that
    nothing reads, and leaves both values alone. The error is cleared when
    there is one. *)
Definition handleFieldChange (name value : jsstring) (page : State) : State :=
  let error := l_error page in
  let page :=
    {| formEmail :=
         if bool_decide (name = lit "email") then value else formEmail page;
       formPassword :=
         if bool_decide (name = lit "password") then value
         else formPassword page;
       l_loading := l_loading page; l_error := l_error page |} in
  if truthy error then
    {| formEmail := formEmail page; formPassword := formPassword page;
       l_loading := l_loading page; l_error := [] |}
  else page.

(** [disabled={!formData.email || !formData.password}] of the sign-in
    button. *)
Definition signInDisabled (page : State) : bool :=
  negb (truthy (formEmail page)) || negb (truthy (formPassword page)).

End Login.

(** ** Failure and shape of API outcomes *)

(** A call failed: it rejected, or it returned [success: false]. *)
Definition failed {D} (api : Outcome (Response D)) : Prop :=
  match api with
  | Threw _ => True
  | Returned response => success response = false
  end.

Definition outcomeShape {A} (shapeOf : A -> Shape) (o : Outcome A)
    : Outcome Shape :=
  match o with
  | Returned response => Returned (shapeOf response)
  | Threw m => Threw m
  end.

(** The two shapes of the API surface: an object with [success] and [data],
    or an object with [success: false], [message] and [errors]. *)
Definition conforms (sh : Shape) : Prop :=
  has_data sh = true \/
  (sh_success sh = false /\ has_message sh = true /\ has_errors sh = true).

(** The call delivers a value of one of the two shapes. *)
Definition deliversValue (o : Outcome Shape) : Prop :=
  exists sh, o = Returned sh /\ conforms sh.

(** An outcome that is the rejection with message [m] when the failure
    draw fires, and a returned object of shape [sh] otherwise. *)
Definition rejectsOrReturns {A} (shapeOf : A -> Shape) (fires : bool)
    (m : jsstring) (sh : Shape) (o : Outcome A) : Prop :=
  outcomeShape shapeOf o = if fires then Threw m else Returned sh.

(** [{ success: true, data }], with or without [message]. *)
Definition okData (withMessage : bool) : Shape :=
  {| sh_success := true; has_data := true; has_message := withMessage;
     has_errors := false |}.

(** [{ success: true, message }] *)
Definition okMessage : Shape :=
  {| sh_success := true; has_data := false; has_message := true;
     has_errors := false |}.

(** [{ success: false, message, errors }] *)
Definition rejected : Shape :=
  {| sh_success := false; has_data := false; has_message := true;
     has_errors := true |}.

(** ** Sample inputs *)

Definition sampleNotification : Notification :=
  {| n_id := lit "n1"; n_type := lit "system"; title := lit "Hello";
     n_message := lit "World"; read := false;
     n_timestamp := lit "2025-07-25T08:00:00Z"; actionUrl := None |}.

Definition passwordRules : FormField.ValidationRules :=
  {| FormField.required := Some true; FormField.minLength := Some 8%Z;
     FormField.maxLength := None; FormField.pattern := None;
     FormField.custom := None |}.

Definition passwordField (v : jsstring) : FormField.Props :=
  {| FormField.name := lit "password";
     FormField.label := Some (lit "Password"); FormField.value := v;
     FormField.validationRules := Some passwordRules;
     FormField.externalError := None |}.

(** A pattern that rejects everything, so that any skipping shows. *)
Definition rejectAll : jsstring -> bool := fun _ => false.

Definition codeRules : FormField.ValidationRules :=
  {| FormField.required := None; FormField.minLength := None;
     FormField.maxLength := Some 12%Z; FormField.pattern := Some rejectAll;
     FormField.custom := None |}.

Definition codeField : FormField.Props :=
  {| FormField.name := lit "code"; FormField.label := None;
     FormField.value := []; FormField.validationRules := Some codeRules;
     FormField.externalError := None |}.

(** Rules with a pattern, without [required] and [minLength], whose custom
    predicate insists on a value. *)
Definition nonEmptyRules : FormField.ValidationRules :=
  {| FormField.required := None; FormField.minLength := None;
     FormField.maxLength := None; FormField.pattern := Some rejectAll;
     FormField.custom :=
       Some (fun v => if truthy v then None else Some (lit "Enter a value")) |}.

Definition nonEmptyField : FormField.Props :=
  {| FormField.name := lit "code"; FormField.label := None;
     FormField.value := []; FormField.validationRules := Some nonEmptyRules;
     FormField.externalError := None |}.

(** A store loaded with the mock services and tickets. *)
Definition loadedStore : AppState :=
  {| currentUser := Some Login.mockUser; notifications := [];
     unreadNotificationCount := 0; services := MockApi.mockServices;
     supportTickets := MockApi.mockTickets; loading := false;
     error := None |}.

Definition idle : HookState := {| h_loading := false; h_error := None |}.

Definition sampleTicketData : TicketData :=
  {| d_category := lit "Technical"; d_subject := lit "Cannot reach site";
     d_body := lit "The site has been down since noon.";
     d_status := None; d_priority := Some (lit "high");
     d_attachments := None |}.

(** ** Button (components/atoms/Button) *)

Module Button.

(** [handleClick]: the handler runs unless the button is disabled or
    loading, or has no handler. The handler acts on the state [S] of its
    owner. *)
Definition handleClick {S : Type} (disabled loading : bool)
    (onClick : option (S -> S)) (s : S) : S :=
  if negb disabled && negb loading then
    match onClick with
    | Some f => f s
    | None => s
    end
  else s.

End Button.

(** The sign-in button of the login page:
    [onClick={handleLogin} loading={loading} disabled={...}]. *)
Definition signInClick (w : Login.State * AppState * jsstring)
    : Login.State * AppState * jsstring :=
  Button.handleClick (Login.signInDisabled (w.1.1)) (Login.l_loading (w.1.1))
    (Some (fun w : Login.State * AppState * jsstring =>
             Login.handleLogin (w.1.1) (w.1.2) (w.2)))
    w.

(** ** Routes (App.tsx)

    The route table, over the paths it lists. A route element either
    renders a page or is a [<Navigate replace>] to another path. *)

Module App.

Inductive Path :=
| Root | LoginPath | DashboardPath | ServicesPath | DomainsPath
| SupportPath | BillingPath | ProfilePath.

Definition href (p : Path) : jsstring :=
  match p with
  | Root => lit "/"
  | LoginPath => lit "/login"
  | DashboardPath => lit "/dashboard"
  | ServicesPath => lit "/services"
  | DomainsPath => lit "/domains"
  | SupportPath => lit "/support"
  | BillingPath => lit "/billing"
  | ProfilePath => lit "/profile"
  end.

Inductive Page :=
| LoginPage | DashboardPage | ServicesPage | DomainsPage
| SupportPage | BillingPage | ProfilePage.

Inductive Element :=
| Render (page : Page)
| Navigate (to : Path).

Definition ProtectedRoute (state : AppState) (children : Page) : Element :=
  match currentUser state with
  | None => Navigate LoginPath
  | Some _ => Render children
  end.

Definition PublicRoute (state : AppState) (children : Page) : Element :=
  match currentUser state with
  | Some _ => Navigate DashboardPath
  | None => Render children
  end.

Definition routes (state : AppState) (path : Path) : Element :=
  match path with
  | LoginPath => PublicRoute state LoginPage
  | DashboardPath => ProtectedRoute state DashboardPage
  | ServicesPath => ProtectedRoute state ServicesPage
  | DomainsPath => ProtectedRoute state DomainsPage
  | SupportPath => ProtectedRoute state SupportPage
  | BillingPath => ProtectedRoute state BillingPage
  | ProfilePath => ProtectedRoute state ProfilePage
  | Root => Navigate DashboardPath
  end.

(** Following the redirects from [path], at most [fuel] route elements
    deep: the path the browser ends on and the page rendered there. *)
Fixpoint settle (fuel : nat) (state : AppState) (path : Path)
    : option (Path * Page) :=
  match fuel with
  | 0 => None
  | S fuel' =>
      match routes state path with
      | Render page => Some (path, page)
      | Navigate to => settle fuel' state to
      end
  end.

End App.

(** ** Handlers shared by the pages *)

Module Pages.

(** [handleNotificationClick] (Dashboard, Services, Domains, Support,
    Billing, Profile): one dispatch per notification that the render the
    handler closed over shows as unread. *)
Definition handleNotificationClick (rendered store : AppState) : AppState :=
  fold_left
    (fun st notification =>
       if negb (read notification)
       then markNotificationRead (n_id notification) st
       else st)
    (notifications rendered) store.

(** [Profile.handleLogout]: [logout(); navigate('/login')]. *)
Definition handleLogout (store : AppState) (location : jsstring)
    : AppState * jsstring :=
  (logout store, lit "/login").

End Pages.

(** ** Support page (pages/Support) *)

Module Support.

Record FormData := {
  f_category : jsstring; f_subject : jsstring; f_body : jsstring;
  f_priority : jsstring }.

Record FormState := { formData : FormData; isSubmitting : bool }.

Definition initialForm : FormState :=
  {| formData := {| f_category := lit "Technical"; f_subject := [];
                    f_body := []; f_priority := lit "medium" |};
     isSubmitting := false |}.

(** The form data as the ticket data the hook receives. *)
Definition ticketDataOf (f : FormData) : TicketData :=
  {| d_category := f_category f; d_subject := f_subject f;
     d_body := f_body f; d_status := None; d_priority := Some (f_priority f);
     d_attachments := None |}.

(** [!formData.subject.trim() || !formData.body.trim()] *)
Definition blank (f : FormData) : bool :=
  negb (truthy (trim (f_subject f))) || negb (truthy (trim (f_body f))).

(** [CreateTicketForm.handleSubmit] with [onSubmit = handleCreateTicket]
    (which awaits [createTicket]) and [onClose] clearing [showCreateForm].
    [api] is the outcome of the mock call [createTicket] makes. *)
Definition handleSubmit_on (api : Outcome (Response SupportTicket))
    (randomId2 now4 now5 : jsstring)
    (form : FormState) (showCreateForm : bool)
    (store : AppState) (h : HookState)
    : FormState * bool * AppState * HookState :=
  if blank (formData form) then (form, showCreateForm, store, h)
  else
    let form := {| formData := formData form; isSubmitting := true |} in
    let '(store, h, result) :=
      useSupportTickets.createTicket_on api randomId2 now4 now5 store h in
    let showCreateForm :=
      match result with
      | Returned _ => false
      | Threw _ => showCreateForm
      end in
    ({| formData := formData form; isSubmitting := false |},
     showCreateForm, store, h).

Definition handleSubmit (draw : Q) (randomId now1 now2 now3 : jsstring)
    (randomId2 now4 now5 : jsstring)
    (form : FormState) (showCreateForm : bool)
    (store : AppState) (h : HookState) :=
  handleSubmit_on
    (MockApi.createSupportTicket draw randomId now1 now2 now3
       (ticketDataOf (formData form)))
    randomId2 now4 now5 form showCreateForm store h.

(** [tickets.filter(t => filter === 'all' || t.status === filter)] *)
Definition filteredTickets (filter : jsstring) (tickets : list SupportTicket)
    : list SupportTicket :=
  List.filter
    (fun ticket => bool_decide (filter = lit "all")
                   || bool_decide (t_status ticket = filter))
    tickets.

(** [tickets.reduce((acc, t) => { acc[t.status] = (acc[t.status] || 0) + 1;
    return acc }, {})]. The keys are ticket statuses, which are typed as
    the four status literals; none of them is an inherited property of the
    accumulator object. *)
Definition ticketCounts (tickets : list SupportTicket) : gmap jsstring nat :=
  fold_left
    (fun acc ticket =>
       <[t_status ticket := default 0 (acc !! t_status ticket) + 1]> acc)
    tickets ∅.

(** [ticketCounts[key] || 0], the count a tab shows. *)
Definition tabCount (tickets : list SupportTicket) (key : jsstring) : nat :=
  default 0 (ticketCounts tickets !! key).

(** [badge: tickets.filter(t => t.status === 'open').length] *)
Definition supportBadge (tickets : list SupportTicket) : nat :=
  length (List.filter (fun t => bool_decide (t_status t = lit "open")) tickets).

End Support.

(** ** Services page (pages/Services) *)

Module Services.

(** [ServiceCard.handleToggleAutoRenew]: asks for the opposite of the flag
    the card was rendered with; a rejection is logged and goes no further.
    The last component is the card's [isLoading]. *)
Definition handleToggleAutoRenew_on (api : Outcome (Response AutoRenewData))
    (service : Service) (rendered store : AppState) (h : HookState)
    : AppState * HookState * bool :=
  let '(store, h, _) :=
    useServices.toggleAutoRenew_on api (s_id service)
      (negb (autoRenew service)) rendered store h in
  (store, h, false).

Definition handleToggleAutoRenew (draw : Q) (now : jsstring)
    (service : Service) :=
  handleToggleAutoRenew_on
    (MockApi.toggleAutoRenew draw now (s_id service) (negb (autoRenew service)))
    service.

End Services.

(** ** Navigation bar (components/organisms/NavigationBar) *)

Module NavigationBar.

(** What a JSX expression contributes to the rendered children: nothing
    ([false], [undefined]), a bare text (a number child is rendered as its
    digits, [0] included), or the badge [<span>] with its text. *)
Inductive Child :=
| Nothing
| Text (s : jsstring)
| BadgeSpan (s : jsstring).

(** [{item.badge && item.badge > 0 && <span>{item.badge > 99 ? '99+' :
    item.badge}</span>}] *)
Definition itemBadge (badge : option Z) : Child :=
  match badge with
  | None => Nothing
  | Some b =>
      if (b =? 0)%Z then Text (ofZ b)
      else if (0 <? b)%Z then
        BadgeSpan (if (99 <? b)%Z then lit "99+" else ofZ b)
      else Nothing
  end.

(** [{notificationCount > 0 && <span>{notificationCount > 99 ? '99+' :
    notificationCount}</span>}], with the default [notificationCount = 0]. *)
Definition notificationBadge (notificationCount : option Z) : Child :=
  let n := default 0%Z notificationCount in
  if (0 <? n)%Z then BadgeSpan (if (99 <? n)%Z then lit "99+" else ofZ n)
  else Nothing.

(** [`Notifications${notificationCount > 0 ? ` (${notificationCount}
    unread)` : ''}`] *)
Definition ariaLabel (notificationCount : option Z) : jsstring :=
  let n := default 0%Z notificationCount in
  lit "Notifications"
  ++ (if (0 <? n)%Z then lit " (" ++ ofZ n ++ lit " unread)" else []).

End NavigationBar.

(** ** Further sample inputs *)

(** A service and a ticket that the mock collections do not hold. *)
Definition sampleService : Service :=
  MockApi.mockService (lit "99") (lit "email") (lit "Mailbox")
    (lit "2026-01-01T00:00:00Z") true None None None.

Definition sampleTicket : SupportTicket :=
  {| t_id := lit "777"; category := lit "Billing"; subject := lit "Refund";
     body := lit "Please refund the last invoice."; t_status := lit "closed";
     priority := lit "low"; createdAt := lit "2025-07-01T00:00:00Z";
     updatedAt := lit "2025-07-02T00:00:00Z"; messages := [];
     attachments := None |}.

(** The mock service at a position of the mock list. *)
Definition mockService_at (i : nat) : Service :=
  nth i MockApi.mockServices sampleService.

(** ** Regular expressions

    The patterns of the login and profile forms are used through
    [RegExp.prototype.test] only, without flags, and are anchored at both
    ends ([^...$]): [test] asks whether the whole string belongs to the
    language of the pattern. Patterns are built from classes of code units,
    sequence, alternative and repetition, and matched by derivatives. *)

Module RegExp.

Inductive regex :=
| Never
| Empty
| Class (p : N -> bool)
| Seq (r1 r2 : regex)
| Or (r1 r2 : regex)
| Star (r : regex).

Fixpoint nullable (r : regex) : bool :=
  match r with
  | Never => false
  | Empty => true
  | Class _ => false
  | Seq r1 r2 => nullable r1 && nullable r2
  | Or r1 r2 => nullable r1 || nullable r2
  | Star _ => true
  end.

(** What remains to be matched after the code unit [c]. *)
Fixpoint deriv (c : N) (r : regex) : regex :=
  match r with
  | Never => Never
  | Empty => Never
  | Class p => if p c then Empty else Never
  | Seq r1 r2 =>
      if nullable r1 then Or (Seq (deriv c r1) r2) (deriv c r2)
      else Seq (deriv c r1) r2
  | Or r1 r2 => Or (deriv c r1) (deriv c r2)
  | Star r' => Seq (deriv c r') (Star r')
  end.

(** [/^r$/.test(s)] *)
Definition test (r : regex) (s : jsstring) : bool :=
  nullable (fold_left (fun r c => deriv c r) s r).

(** [r+], [r?] and [r{0,n}] *)
Definition plus (r : regex) : regex := Seq r (Star r).

Definition optional (r : regex) : regex := Or Empty r.

Fixpoint upTo (n : nat) (r : regex) : regex :=
  match n with
  | 0 => Empty
  | S n' => optional (Seq r (upTo n' r))
  end.

Definition char (c : N) : regex := Class (N.eqb c).

(** [[^\s@]]: [\s] is the white space that [trim] strips. *)
Definition notSpaceNorAt (c : N) : bool :=
  negb (isWhiteSpace c) && negb (c =? 64)%N.

(** [\d] and [[1-9]] *)
Definition digit (c : N) : bool := ((48 <=? c) && (c <=? 57))%N.

Definition digit19 (c : N) : bool := ((49 <=? c) && (c <=? 57))%N.

(** [/^[^\s@]+@[^\s@]+\.[^\s@]+$/] *)
Definition emailPattern : regex :=
  Seq (plus (Class notSpaceNorAt))
    (Seq (char 64)
       (Seq (plus (Class notSpaceNorAt))
          (Seq (char 46) (plus (Class notSpaceNorAt))))).

(** [/^[\+]?[1-9][\d]{0,15}$/] *)
Definition phonePattern : regex :=
  Seq (optional (char 43)) (Seq (Class digit19) (upTo 15 (Class digit))).

(** The language of a pattern. *)
Inductive matches : regex -> jsstring -> Prop :=
| MEmpty : matches Empty []
| MClass (p : N -> bool) (c : N) : p c = true -> matches (Class p) [c]
| MSeq (r1 r2 : regex) (s1 s2 : jsstring) :
    matches r1 s1 -> matches r2 s2 -> matches (Seq r1 r2) (s1 ++ s2)
| MOrL (r1 r2 : regex) (s : jsstring) : matches r1 s -> matches (Or r1 r2) s
| MOrR (r1 r2 : regex) (s : jsstring) : matches r2 s -> matches (Or r1 r2) s
| MStarNil (r : regex) : matches (Star r) []
| MStarApp (r : regex) (s1 s2 : jsstring) :
    matches r s1 -> matches (Star r) s2 -> matches (Star r) (s1 ++ s2).

End RegExp.

(** The email field of the login form:
    [validationRules={{ required: true, pattern: /^[^\s@]+@[^\s@]+\.[^\s@]+$/ }}] *)
Definition emailField (v : jsstring) (error : option jsstring)
    : FormField.Props :=
  {| FormField.name := lit "email";
     FormField.label := Some (lit "Email address"); FormField.value := v;
     FormField.validationRules :=
       Some {| FormField.required := Some true; FormField.minLength := None;
               FormField.maxLength := None;
               FormField.pattern := Some (RegExp.test RegExp.emailPattern);
               FormField.custom := None |};
     FormField.externalError := error |}.

(** [local@domain.tld]: three non-empty parts free of white space and of
    "@", the last one free of nothing else (dots may occur in all three). *)
Definition emailShape (s : jsstring) : Prop :=
  exists a b c : jsstring,
    s = a ++ [64%N] ++ b ++ [46%N] ++ c /\
    a <> [] /\ b <> [] /\ c <> [] /\
    Forall (fun x => RegExp.notSpaceNorAt x = true) (a ++ b ++ c).

(** A phone number once blanks and hyphens are removed: an optional "+",
    a digit from 1 to 9, and at most fifteen further digits. *)
Definition phoneShape (s : jsstring) : Prop :=
  exists (d : N) (ds : jsstring),
    (s = d :: ds \/ s = 43%N :: d :: ds) /\
    RegExp.digit19 d = true /\
    Forall (fun x => RegExp.digit x = true) ds /\ length ds <= 15.

(** ** Profile page (pages/Profile) *)

Module Profile.

Record BillingForm := {
  b_street : jsstring; b_city : jsstring; b_state : jsstring;
  b_zipCode : jsstring; b_country : jsstring }.

Record ProfileFormData := {
  p_name : jsstring; p_email : jsstring; p_phone : jsstring;
  p_company : jsstring; p_billingAddress : BillingForm }.

(** [phone.replace(/\s|-/g, '')] *)
Definition stripPhone (phone : jsstring) : jsstring :=
  List.filter (fun c => negb (isWhiteSpace c || (c =? 45)%N)) phone.

(** [validateForm]: the errors it sets and the value it returns,
    [Object.keys(errors).length === 0]. *)
Definition validateForm (formData : ProfileFormData)
    : gmap jsstring jsstring * bool :=
  let errors : gmap jsstring jsstring := ∅ in
  let errors :=
    if negb (truthy (trim (p_name formData)))
    then <[lit "name" := lit "Name is required"]> errors else errors in
  let errors :=
    if negb (truthy (trim (p_email formData)))
    then <[lit "email" := lit "Email is required"]> errors
    else if negb (RegExp.test RegExp.emailPattern (p_email formData))
    then <[lit "email" := lit "Please enter a valid email address"]> errors
    else errors in
  let errors :=
    if truthy (p_phone formData)
       && negb (RegExp.test RegExp.phonePattern
                  (stripPhone (p_phone formData)))
    then <[lit "phone" := lit "Please enter a valid phone number"]> errors
    else errors in
  (errors, bool_decide (size errors = 0)).

Record PageState := {
  formData : ProfileFormData;
  formErrors : gmap jsstring jsstring;
  isEditing : bool;
  isSaving : bool }.

(** [handleSave]. [save] is the awaited [updateProfile(formData)] of the
    profile hook: what it does to the store and to the hook, and whether
    it returned or threw. *)
Definition handleSave {W : Type} (save : W -> W * bool)
    (page : PageState) (world : W) : PageState * W :=
  let '(errors, valid) := validateForm (formData page) in
  let page :=
    {| formData := formData page; formErrors := errors;
       isEditing := isEditing page; isSaving := isSaving page |} in
  if negb valid then (page, world)
  else
    let page :=
      {| formData := formData page; formErrors := formErrors page;
         isEditing := isEditing page; isSaving := true |} in
    let '(world, returned) := save world in
    let page :=
      if returned then
        {| formData := formData page; formErrors := formErrors page;
           isEditing := false; isSaving := isSaving page |}
      else page in
    ({| formData := formData page; formErrors := formErrors page;
        isEditing := isEditing page; isSaving := false |}, world).

(** [handleSave] with the profile hook's [updateProfile] as it behaves on
    the awaited outcome [api] of the API call. *)
Definition saveWith (api : Outcome (Response User))
    (world : AppState * HookState) : AppState * HookState * bool :=
  let '(store, h, result) :=
    useProfile.updateProfile_on api world.1 world.2 in
  (store, h, match result with Returned _ => true | Threw _ => false end).

End Profile.

(** * Properties *)

(** ** Strings *)

Example ofZ_examples :
  ofZ 8 = lit "8" /\ ofZ (-1) = lit "-1" /\ ofZ 120 = lit "120".
Proof. repeat split; reflexivity. Qed.

Example trim_examples :
  trim (lit "  a b  ") = lit "a b" /\ trim (lit "   ") = [] /\
  trim [9; 160; 8232; 65279]%N = [] /\ trim (lit " x") = lit "x".
Proof. repeat split; reflexivity. Qed.

Lemma trimStart_whitespace (v : jsstring) :
  Forall (fun c => isWhiteSpace c = true) v -> trimStart v = [].
Proof.
  induction 1 as [| c v Hc _ IH]; simpl; [reflexivity |].
  rewrite Hc. exact IH.
Qed.

Lemma trimStart_nil_whitespace (v : jsstring) :
  trimStart v = [] -> Forall (fun c => isWhiteSpace c = true) v.
Proof.
  induction v as [| c v IH]; simpl; intros H; [constructor |].
  destruct (isWhiteSpace c) eqn:Hc; [| discriminate].
  constructor; auto.
Qed.

Lemma trimStart_head (v w : jsstring) (c : N) :
  trimStart v = c :: w -> isWhiteSpace c = false.
Proof.
  induction v as [| d v IH]; simpl; [discriminate |].
  destruct (isWhiteSpace d) eqn:Hd; [exact IH |].
  intros [= -> _]. exact Hd.
Qed.

Lemma trimStart_keeps_last (u : jsstring) (c : N) :
  isWhiteSpace c = false -> exists u', trimStart (u ++ [c]) = u' ++ [c].
Proof.
  intros Hc. induction u as [| d u IH]; simpl.
  - exists []. rewrite Hc. reflexivity.
  - destruct (isWhiteSpace d); [exact IH |]. exists (d :: u). reflexivity.
Qed.

(** [trim] leaves nothing exactly of the strings made of white space. *)
Lemma trim_nil_iff (v : jsstring) :
  trim v = [] <-> Forall (fun c => isWhiteSpace c = true) v.
Proof.
  unfold trim, trimEnd. split.
  - intros H. apply trimStart_nil_whitespace.
    destruct (trimStart v) as [| c w] eqn:Hv; [reflexivity |].
    exfalso. apply trimStart_head in Hv.
    destruct (trimStart_keeps_last (rev w) c Hv) as [u Hu].
    simpl in H. rewrite Hu, rev_app_distr in H. discriminate.
  - intros H. rewrite (trimStart_whitespace v H). reflexivity.
Qed.

(** ** The store *)

Lemma lookup_map {A B : Type} (f : A -> B) (l : list A) (i : nat) :
  map f l !! i = f <$> (l !! i).
Proof.
  revert i. induction l as [| x l IH]; intros [| i]; simpl; auto.
Qed.

Lemma unreadOf_countUnread (l : list Notification) :
  unreadOf l = countUnread l.
Proof.
  unfold unreadOf. induction l as [| n l IH]; simpl; [reflexivity |].
  destruct (read n); simpl; rewrite IH; reflexivity.
Qed.

(** The three notification actions establish the invariant whatever the
    state before them. *)
Lemma notification_actions_establish (s : AppState) (a : AppAction) :
  match a with
  | SET_NOTIFICATIONS _ | ADD_NOTIFICATION _ | MARK_NOTIFICATION_READ _ =>
      invariant (appReducer s a)
  | _ => notifications (appReducer s a) = notifications s /\
         unreadNotificationCount (appReducer s a) = unreadNotificationCount s
  end.
Proof.
  destruct a; unfold invariant; simpl; try (split; reflexivity);
    apply unreadOf_countUnread.
Qed.

(** C1. Whatever action the reducer processes in a state whose unread
    counter equals the number of notifications with [read = false], the
    counter of the resulting state equals the number of entries of the
    resulting notification list with [read = false]. *)
Theorem reducer_preserves_unread_count (s : AppState) (a : AppAction) :
  invariant s -> invariant (appReducer s a).
Proof.
  intros Hinv. pose proof (notification_actions_establish s a) as H.
  destruct a; try exact H; destruct H as [Hn Hc];
    unfold invariant; rewrite Hn, Hc; exact Hinv.
Qed.

Lemma reducer_preserves_unread_count_witness :
  invariant initialState /\
  invariant (appReducer initialState (ADD_NOTIFICATION sampleNotification)).
Proof.
  split; [reflexivity |].
  apply (reducer_preserves_unread_count initialState
           (ADD_NOTIFICATION sampleNotification)).
  reflexivity.
Defined.

Lemma mark_map_idempotent (id : jsstring) (l : list Notification) :
  let f := fun n => if decide (n_id n = id) then with_read n true else n in
  map f (map f l) = map f l.
Proof.
  intros f. rewrite map_map. apply map_ext. intros n. unfold f.
  destruct (decide (n_id n = id)) as [Heq | Hne]; simpl.
  - rewrite decide_True by exact Heq. reflexivity.
  - rewrite decide_False by exact Hne. reflexivity.
Qed.

(** C9. Marking a notification read is idempotent; it keeps the length and
    the order of the notification list, keeps every entry whose id differs
    as it is, keeps every field but [read] of the matched entries, and
    leaves the rest of the state alone. *)
Theorem mark_notification_read_idempotent (s : AppState) (id : jsstring) :
  let s1 := appReducer s (MARK_NOTIFICATION_READ id) in
  appReducer s1 (MARK_NOTIFICATION_READ id) = s1 /\
  length (notifications s1) = length (notifications s) /\
  (forall (i : nat) (n : Notification),
      notifications s !! i = Some n ->
      exists n', notifications s1 !! i = Some n' /\
        n_id n' = n_id n /\ n_type n' = n_type n /\ title n' = title n /\
        n_message n' = n_message n /\ n_timestamp n' = n_timestamp n /\
        actionUrl n' = actionUrl n /\
        (n_id n <> id -> n' = n) /\
        (n_id n = id -> read n' = true)) /\
  currentUser s1 = currentUser s /\ services s1 = services s /\
  supportTickets s1 = supportTickets s /\ loading s1 = loading s /\
  error s1 = error s.
Proof.
  simpl. repeat split.
  - f_equal; [apply mark_map_idempotent |].
    f_equal. apply mark_map_idempotent.
  - apply length_map.
  - intros i n Hi.
    exists (if decide (n_id n = id) then with_read n true else n).
    split.
    { rewrite lookup_map, Hi. reflexivity. }
    destruct (decide (n_id n = id)) as [Heq | Hne]; simpl;
      repeat split; auto; intros; congruence.
Qed.

Lemma mark_notification_read_idempotent_witness :
  let s := appReducer initialState
             (SET_NOTIFICATIONS MockApi.mockNotifications) in
  let s1 := appReducer s (MARK_NOTIFICATION_READ (lit "1")) in
  appReducer s1 (MARK_NOTIFICATION_READ (lit "1")) = s1 /\
  length (notifications s1) = 3 /\
  read <$> notifications s1 !! 0 = Some true /\
  notifications s1 !! 1 = notifications s !! 1 /\
  unreadNotificationCount s = 2 /\ unreadNotificationCount s1 = 1.
Proof.
  intros s s1.
  pose proof (mark_notification_read_idempotent s (lit "1")) as H.
  cbv zeta in H. fold s1 in H.
  destruct H as (Hidem & Hlen & Hentries & _).
  split; [exact Hidem |]. split; [exact Hlen |].
  split; [| split; [| split; reflexivity]].
  - destruct (Hentries 0 _ eq_refl) as (n' & Hn' & _ & _ & _ & _ & _ & _ & _ & Hread).
    rewrite Hn'. simpl. f_equal. apply Hread. reflexivity.
  - destruct (Hentries 1 _ eq_refl) as (n' & Hn' & _ & _ & _ & _ & _ & _ & Hsame & _).
    rewrite Hn'. simpl. f_equal. apply Hsame.
    intros H. discriminate H.
Defined.

(** ** The form field *)

Section FormFieldFacts.
Import FormField.

(** Until the first blur the field stays untouched, whatever is typed. *)
Lemma untouched_until_blur (es : list Event) (st : State) :
  touched st = false ->
  forallb (fun e => negb (isBlur e)) es = true ->
  run st es = st.
Proof.
  revert st. induction es as [| e es IH]; intros st Hst Hes; [reflexivity |].
  simpl in Hes. apply andb_prop in Hes as [He Hes].
  destruct e as [p v | p]; [| discriminate].
  unfold run in *. simpl. unfold handleChange. rewrite Hst.
  apply IH; assumption.
Qed.

Lemma validate_required (p : Props) (rules : ValidationRules) (v : jsstring) :
  validationRules p = Some rules ->
  required rules = Some true ->
  whitespaceOnly v ->
  validate p v = labelOrName p ++ lit " is required".
Proof.
  intros Hrules Hreq Hv. unfold validate. rewrite Hrules, Hreq.
  apply trim_nil_iff in Hv. rewrite Hv. reflexivity.
Qed.

(** C2. With [required: true], validating an empty or white-space-only
    value yields the message "<label or name> is required". As long as the
    field has only received changes (no blur yet), it stays untouched and
    shows no validation error, whatever the props and the values typed: what
    is displayed is the external error, if any, and nothing otherwise. The
    first blur on such a value displays the message, and a later change to
    such a value keeps it displayed. *)
Theorem required_error_shown_once_touched
    (p : Props) (rules : ValidationRules) (v : jsstring) :
  validationRules p = Some rules ->
  required rules = Some true ->
  whitespaceOnly v ->
  validate p v = labelOrName p ++ lit " is required" /\
  (forall (es : list Event) (q : Props),
      forallb (fun e => negb (isBlur e)) es = true ->
      touched (run initial es) = false /\
      currentError q (run initial es) = default [] (externalError q)) /\
  (forall (st : State),
      value p = v -> truthyString (externalError p) = false ->
      touched (handleBlur p st) = true /\
      currentError p (handleBlur p st) = labelOrName p ++ lit " is required" /\
      currentError p (handleChange p (handleBlur p st) v)
        = labelOrName p ++ lit " is required").
Proof.
  intros Hrules Hreq Hv.
  pose proof (validate_required p rules v Hrules Hreq Hv) as Hval.
  split; [exact Hval |]. split.
  - intros es q Hes.
    rewrite (untouched_until_blur es initial eq_refl Hes).
    split; [reflexivity |].
    unfold currentError, truthyString. simpl.
    destruct (externalError q) as [[| c e] |]; reflexivity.
  - intros st Hvalue Hext. unfold currentError, handleChange, handleBlur.
    rewrite Hext. simpl. rewrite Hvalue, Hval. auto.
Qed.

Lemma required_error_shown_once_touched_witness :
  validate (passwordField (lit "   ")) (lit "   ") = lit "Password is required" /\
  currentError (passwordField (lit "   "))
    (run initial [Change (passwordField []) (lit " ");
                  Change (passwordField (lit " ")) (lit "   ")]) = [] /\
  currentError (passwordField (lit "   "))
    (handleBlur (passwordField (lit "   ")) initial)
    = lit "Password is required".
Proof.
  assert (Hws : whitespaceOnly (lit "   ")).
  { repeat constructor. }
  destruct (required_error_shown_once_touched
              (passwordField (lit "   ")) passwordRules (lit "   ")
              eq_refl eq_refl Hws) as [H1 [H2 H3]].
  split; [exact H1 |]. split.
  - exact (proj2 (H2 [Change (passwordField []) (lit " ");
                      Change (passwordField (lit " ")) (lit "   ")]
                     (passwordField (lit "   ")) eq_refl)).
  - exact (proj1 (proj2 (H3 initial eq_refl eq_refl))).
Defined.

Lemma validate_empty_optional
    (p : Props) (rules : ValidationRules) :
  validationRules p = Some rules ->
  required rules <> Some true ->
  minLength rules = None ->
  (forall m, maxLength rules = Some m -> (0 <= m)%Z) ->
  (forall f, custom rules = Some f -> f [] = None \/ f [] = Some []) ->
  validate p [] = [].
Proof.
  intros Hrules Hreq Hmin Hmax Hcus. unfold validate.
  rewrite Hrules, Hmin.
  replace (truthyBool (required rules)) with false
    by (destruct (required rules) as [[|] |]; simpl; congruence).
  assert (Hm : match maxLength rules with
               | Some m => negb (m =? 0)%Z && (m <? Z.of_nat (length (@nil N)))%Z
               | None => false
               end = false).
  { destruct (maxLength rules) as [m |] eqn:Hm; [| reflexivity].
    specialize (Hmax m eq_refl). simpl.
    destruct (Z.ltb_spec m (Z.of_nat 0)); [lia | apply andb_false_r]. }
  rewrite Hm. simpl.
  replace (match pattern rules with Some _ => false | None => false end)
    with false by (destruct (pattern rules); reflexivity).
  destruct (custom rules) as [f |]; [| reflexivity].
  destruct (Hcus f eq_refl) as [-> | ->]; reflexivity.
Qed.

(** C10, as the code has it. For rules that contain a pattern, no
    [required: true] and no [minLength], and whose other rules accept the
    empty string (no negative [maxLength], no [custom] predicate that
    returns a message for it), validating the empty string yields no error:
    the pattern is not consulted for empty input, and the empty field shows
    no validation error after it has been touched. *)
Theorem empty_optional_field_skips_pattern
    (p : Props) (rules : ValidationRules) (test : jsstring -> bool) :
  validationRules p = Some rules ->
  pattern rules = Some test ->
  required rules <> Some true ->
  minLength rules = None ->
  (forall m, maxLength rules = Some m -> (0 <= m)%Z) ->
  (forall f, custom rules = Some f -> f [] = None \/ f [] = Some []) ->
  validate p [] = [] /\
  (forall (st : State),
      value p = [] -> truthyString (externalError p) = false ->
      touched (handleBlur p st) = true /\
      currentError p (handleBlur p st) = [] /\
      currentError p (handleChange p (handleBlur p st) []) = []).
Proof.
  intros Hrules _ Hreq Hmin Hmax Hcus.
  pose proof (validate_empty_optional p rules Hrules Hreq Hmin Hmax Hcus)
    as Hval.
  split; [exact Hval |].
  intros st Hvalue Hext. unfold currentError, handleChange, handleBlur.
  rewrite Hext. simpl. rewrite Hvalue, Hval. auto.
Qed.

Lemma empty_optional_field_skips_pattern_witness :
  validate codeField [] = [] /\
  currentError codeField (handleBlur codeField initial) = [] /\
  validate codeField (lit "x") = lit "code format is invalid".
Proof.
  assert (Hmax : forall m, maxLength codeRules = Some m -> (0 <= m)%Z).
  { intros m [= <-]. lia. }
  assert (Hcus : forall f, custom codeRules = Some f ->
                           f [] = None \/ f [] = Some []).
  { intros f [=]. }
  assert (Hreq : required codeRules <> Some true).
  { intros [=]. }
  destruct (empty_optional_field_skips_pattern codeField codeRules rejectAll
              eq_refl eq_refl Hreq eq_refl Hmax Hcus) as [H1 H2].
  split; [exact H1 |]. split.
  - exact (proj1 (proj2 (H2 initial eq_refl eq_refl))).
  - reflexivity.
Defined.

(** C10 as stated fails: a pattern, no [required], no [minLength], and yet
    the empty string is rejected, by the custom predicate; the message is
    displayed once the field is touched. *)
Lemma empty_optional_field_custom_counterexample :
  validationRules nonEmptyField = Some nonEmptyRules /\
  pattern nonEmptyRules = Some rejectAll /\
  required nonEmptyRules <> Some true /\
  minLength nonEmptyRules = None /\
  validate nonEmptyField [] = lit "Enter a value" /\
  validate nonEmptyField [] <> [] /\
  currentError nonEmptyField (handleBlur nonEmptyField initial)
    = lit "Enter a value".
Proof.
  repeat split; try reflexivity; intros H; discriminate H.
Qed.

End FormFieldFacts.

(** ** Failure injection *)

Lemma Qltb_lt (x y : Q) : Qltb x y = true <-> (x < y)%Q.
Proof. unfold Qltb, Qlt. apply Z.ltb_lt. Qed.

Lemma Qltb_ge (x y : Q) : Qltb x y = false <-> (y <= x)%Q.
Proof. unfold Qltb, Qle. apply Z.ltb_ge. Qed.

Lemma shouldSimulateError_fires (draw chance : Q) :
  (draw < chance)%Q -> MockApi.shouldSimulateError draw chance = true.
Proof. apply Qltb_lt. Qed.

Lemma shouldSimulateError_passes (draw chance : Q) :
  (chance <= draw)%Q -> MockApi.shouldSimulateError draw chance = false.
Proof. apply Qltb_ge. Qed.

(** ** Login *)

Section LoginFacts.
Import Login.

(** C3, as the code has it. The page handler: the demo pair sets the user
    and routes to the dashboard; any other pair sets the error "Invalid
    email or password. Please try again." and leaves user and route alone.
    The mock endpoint: unless the simulated network failure fires (a draw
    below 0.05), the demo pair is answered with [success: true] and the
    user, any other pair with [success: false] and the message "Invalid
    email or password"; when it fires, the call rejects with "Network
    error. Please try again." whatever the credentials. *)
Theorem login_outcomes
    (page : State) (store : AppState) (location : jsstring)
    (draw : Q) (nowMs : Z) :
  let demo := formEmail page = lit "john.doe@example.com" /\
              formPassword page = lit "password123" in
  let r := handleLogin page store location in
  let api := MockApi.login draw nowMs (formEmail page) (formPassword page) in
  (demo ->
     currentUser (r.1.2) = Some mockUser /\ r.2 = lit "/dashboard" /\
     l_error (r.1.1) = [] /\ l_loading (r.1.1) = false) /\
  (~ demo ->
     l_error (r.1.1) = lit "Invalid email or password. Please try again." /\
     startsWith (lit "Invalid email or password") (l_error (r.1.1)) = true /\
     r.1.2 = store /\ r.2 = location /\ l_loading (r.1.1) = false) /\
  ((MockApi.loginChance <= draw)%Q ->
     (demo ->
        api = Returned (LoginOk true
                {| token := lit "mock-jwt-token-" ++ ofZ nowMs;
                   user := MockApi.johnDoe None None |})) /\
     (~ demo ->
        api = Returned (LoginRejected false (lit "Invalid email or password")
                          [lit "Invalid credentials"]))) /\
  ((draw < MockApi.loginChance)%Q ->
     api = Threw (lit "Network error. Please try again.")).
Proof.
  intros demo r api. subst r api.
  unfold handleLogin, MockApi.login, MockApi.login_at.
  destruct (decide demo) as [Hdemo | Hdemo].
  - pose proof Hdemo as [He Hp]. cbn [formEmail formPassword].
    rewrite He, Hp. simpl.
    split; [auto |]. split; [intros Hn; contradiction |].
    split.
    + intros Hd. rewrite (shouldSimulateError_passes _ _ Hd).
      split; [reflexivity |]. intros Hn; contradiction.
    + intros Hd. rewrite (shouldSimulateError_fires _ _ Hd). reflexivity.
  - assert (Hb : bool_decide (formEmail page = lit "john.doe@example.com")
                 && bool_decide (formPassword page = lit "password123")
                 = false).
    { apply andb_false_iff.
      destruct (decide (formEmail page = lit "john.doe@example.com")) as [He | He].
      - right. apply bool_decide_eq_false. intros Hp. apply Hdemo. split; assumption.
      - left. apply bool_decide_eq_false. exact He. }
    cbn [formEmail formPassword]. rewrite Hb. simpl.
    split; [intros Hd; contradiction |]. split; [auto |].
    split.
    + intros Hd. rewrite (shouldSimulateError_passes _ _ Hd).
      split; [intros Hd'; contradiction | reflexivity].
    + intros Hd. rewrite (shouldSimulateError_fires _ _ Hd). reflexivity.
Qed.

Lemma login_outcomes_witness :
  currentUser
    ((handleLogin
        {| formEmail := lit "john.doe@example.com";
           formPassword := lit "password123";
           l_loading := false; l_error := [] |}
        initialState (lit "/login")).1.2) = Some mockUser /\
  MockApi.login (1 # 2) 1753430400000
    (lit "john.doe@example.com") (lit "password123")
  = Returned (LoginOk true
       {| token := lit "mock-jwt-token-1753430400000";
          user := MockApi.johnDoe None None |}) /\
  l_error
    ((handleLogin
        {| formEmail := lit "jane@example.com"; formPassword := lit "secret";
           l_loading := false; l_error := [] |}
        initialState (lit "/login")).1.1)
  = lit "Invalid email or password. Please try again." /\
  MockApi.login (1 # 2) 0 (lit "jane@example.com") (lit "secret")
  = Returned (LoginRejected false (lit "Invalid email or password")
                [lit "Invalid credentials"]).
Proof.
  pose proof (login_outcomes
    {| formEmail := lit "john.doe@example.com";
       formPassword := lit "password123";
       l_loading := false; l_error := [] |}
    initialState (lit "/login") (1 # 2) 1753430400000) as Hgood.
  pose proof (login_outcomes
    {| formEmail := lit "jane@example.com"; formPassword := lit "secret";
       l_loading := false; l_error := [] |}
    initialState (lit "/login") (1 # 2) 0) as Hbad.
  simpl in Hgood, Hbad.
  destruct Hgood as [G1 [_ [G3 _]]]. destruct Hbad as [_ [B2 [B3 _]]].
  assert (Hdraw : (MockApi.loginChance <= 1 # 2)%Q).
  { unfold Qle. simpl. lia. }
  assert (Hne : ~ (lit "jane@example.com" = lit "john.doe@example.com" /\
                   lit "secret" = lit "password123")).
  { intros [H _]. discriminate H. }
  split; [exact (proj1 (G1 (conj eq_refl eq_refl))) |].
  split; [exact (proj1 (G3 Hdraw) (conj eq_refl eq_refl)) |].
  split; [exact (proj1 (B2 Hne)) |].
  exact (proj2 (B3 Hdraw) Hne).
Defined.

(** C3 as stated fails on the mock endpoint: with a draw below 0.05 the
    demo pair does not succeed, and another pair is not answered with
    "Invalid email or password"; both calls reject with the network error.
    On the page the message for a wrong pair is a longer sentence. *)
Lemma login_network_error_counterexample :
  MockApi.login (1 # 100) 0 (lit "john.doe@example.com") (lit "password123")
    = Threw (lit "Network error. Please try again.") /\
  MockApi.login (1 # 100) 0 (lit "jane@example.com") (lit "secret")
    = Threw (lit "Network error. Please try again.") /\
  l_error
    ((handleLogin
        {| formEmail := lit "jane@example.com"; formPassword := lit "secret";
           l_loading := false; l_error := [] |}
        initialState (lit "/login")).1.1)
    <> lit "Invalid email or password".
Proof.
  split; [reflexivity |]. split; [reflexivity |].
  intros H. discriminate H.
Qed.

End LoginFacts.

(** ** Services *)

Lemma update_service_length (st : AppState) (payload : Service) :
  length (services (appReducer st (UPDATE_SERVICE payload)))
  = length (services st).
Proof. simpl. apply length_map. Qed.

Lemma update_service_lookup (st : AppState) (payload : Service)
    (i : nat) (s : Service) :
  services st !! i = Some s ->
  services (appReducer st (UPDATE_SERVICE payload)) !! i
  = Some (if decide (s_id s = s_id payload) then payload else s).
Proof. intros Hi. simpl. rewrite lookup_map, Hi. reflexivity. Qed.

(** [find] returns the entry itself when ids are unique. *)
Lemma find_by_unique_id (l : list Service) (i : nat) (s : Service) :
  NoDup (map s_id l) ->
  l !! i = Some s ->
  List.find (fun x => bool_decide (s_id x = s_id s)) l = Some s.
Proof.
  revert i. induction l as [| x l IH]; intros i Hnd Hi; [discriminate |].
  simpl in Hnd. apply list.NoDup_cons in Hnd as [Hx Hnd]. simpl.
  destruct i as [| i]; simpl in Hi.
  - injection Hi as ->. rewrite bool_decide_eq_true_2 by reflexivity.
    reflexivity.
  - rewrite bool_decide_eq_false_2; [exact (IH i Hnd Hi) |].
    intros Heq. apply Hx. rewrite Heq.
    apply list_elem_of_In, in_map, list_elem_of_In.
    apply list_elem_of_lookup. exists i. exact Hi.
Qed.

Lemma find_by_id_sound (l : list Service) (id : jsstring) (s : Service) :
  List.find (fun x => bool_decide (s_id x = id)) l = Some s -> s_id s = id.
Proof.
  intros H. apply find_some in H as [_ H].
  apply bool_decide_eq_true in H. exact H.
Qed.

(** C4. Toggling auto-renew for a service id leaves the length of the
    services collection and every record with another id, at its position,
    as they were, keeps a record with that id at each position that held
    one, and touches nothing else in the store; this holds whether the call
    succeeds or fails and whatever state the hook was rendered with. When
    the call succeeds on the current state and ids are unique, the record
    with that id is the old one with the new flag. *)
Theorem toggle_auto_renew_frame
    (draw : Q) (now serviceId : jsstring) (autoRenew : bool)
    (rendered store : AppState) (h : HookState) :
  let r := useServices.toggleAutoRenew draw now serviceId autoRenew
             rendered store h in
  let store' := r.1.1 in
  length (services store') = length (services store) /\
  (forall (i : nat) (s : Service),
      services store !! i = Some s -> s_id s <> serviceId ->
      services store' !! i = Some s) /\
  (forall (i : nat) (s : Service),
      services store !! i = Some s -> s_id s = serviceId ->
      exists s', services store' !! i = Some s' /\ s_id s' = serviceId) /\
  (currentUser store' = currentUser store /\
   notifications store' = notifications store /\
   unreadNotificationCount store' = unreadNotificationCount store /\
   supportTickets store' = supportTickets store /\
   loading store' = loading store /\ error store' = error store) /\
  (rendered = store -> NoDup (map s_id (services store)) ->
   (MockApi.defaultChance <= draw)%Q ->
   forall (i : nat) (s : Service),
     services store !! i = Some s -> s_id s = serviceId ->
     services store' !! i = Some (with_autoRenew s autoRenew)).
Proof.
  intros r store'. subst store' r.
  unfold useServices.toggleAutoRenew, useServices.toggleAutoRenew_on,
    MockApi.toggleAutoRenew, MockApi.toggleAutoRenew_at,
    MockApi.simulateError, MockApi.simulateRequest.
  destruct (MockApi.shouldSimulateError draw MockApi.defaultChance) eqn:Hdraw.
  - (* the call rejects: the store is the one before *)
    cbn [fst snd]. repeat split; auto.
    + intros i s Hi Hid. exists s. auto.
    + intros _ _ Hd. apply shouldSimulateError_passes in Hd. congruence.
  - cbn [success fst snd].
    destruct (List.find (fun s => bool_decide (s_id s = serviceId))
                        (services rendered)) as [s0 |] eqn:Hfind.
    + pose proof (find_by_id_sound _ _ _ Hfind) as Hs0.
      split; [apply update_service_length |].
      split; [| split; [| split]].
      * intros i s Hi Hid. rewrite (update_service_lookup _ _ _ _ Hi).
        rewrite decide_False; [reflexivity |]. simpl. congruence.
      * intros i s Hi Hid. rewrite (update_service_lookup _ _ _ _ Hi).
        rewrite decide_True by (simpl; congruence).
        eexists; split; [reflexivity | exact Hs0].
      * repeat split; reflexivity.
      * intros -> Hnd _ i s Hi Hid.
        rewrite (update_service_lookup _ _ _ _ Hi).
        rewrite decide_True by (simpl; congruence).
        rewrite <- Hid, (find_by_unique_id _ _ _ Hnd Hi) in Hfind.
        injection Hfind as ->. reflexivity.
    + repeat split; auto.
      * intros i s Hi Hid. exists s. auto.
      * intros -> Hnd _ i s Hi Hid. exfalso.
        rewrite <- Hid, (find_by_unique_id _ _ _ Hnd Hi) in Hfind.
        discriminate Hfind.
Qed.

Lemma toggle_auto_renew_frame_witness :
  let store' :=
    (useServices.toggleAutoRenew (1 # 2) (lit "2025-07-25T08:00:00Z")
       (lit "2") true loadedStore loadedStore idle).1.1 in
  length (services store') = 4 /\
  services store' !! 0 = MockApi.mockServices !! 0 /\
  services store' !! 1
    = (fun s => with_autoRenew s true) <$> MockApi.mockServices !! 1 /\
  autoRenew <$> MockApi.mockServices !! 1 = Some false.
Proof.
  pose proof (toggle_auto_renew_frame (1 # 2) (lit "2025-07-25T08:00:00Z")
                (lit "2") true loadedStore loadedStore idle)
    as [Hlen [Hother [_ [_ Hsame]]]].
  assert (Hnd : NoDup (map s_id (services loadedStore))).
  { apply (bool_decide_unpack _). vm_compute. exact I. }
  assert (Hdraw : (MockApi.defaultChance <= 1 # 2)%Q).
  { unfold Qle. simpl. lia. }
  split; [exact Hlen |].
  split; [apply Hother; [reflexivity | intros H; discriminate H] |].
  split; [| reflexivity].
  apply (Hsame eq_refl Hnd Hdraw 1); reflexivity.
Defined.

(** ** Support tickets *)

(** C5. When the mock call does not fail, creating a ticket puts exactly
    one new entry in front of the ticket collection; the created and the
    stored entry have status "open" and carry exactly one message, sent by
    the user, whose text is the body of the ticket data. *)
Theorem create_ticket_prepends_open_ticket
    (draw : Q) (randomId now1 now2 now3 randomId2 now4 now5 : jsstring)
    (ticketData : TicketData) (store : AppState) (h : HookState) :
  (MockApi.defaultChance <= draw)%Q ->
  let api := MockApi.createSupportTicket draw randomId now1 now2 now3
               ticketData in
  let r := useSupportTickets.createTicket draw randomId now1 now2 now3
             ticketData randomId2 now4 now5 store h in
  exists (created stored : SupportTicket) (m : TicketMessage),
    api = Returned {| success := true; data := created;
                      message := Some (lit "Support ticket created successfully") |} /\
    r.2 = api /\
    t_status created = lit "open" /\ messages created = [m] /\
    body created = d_body ticketData /\
    m_message m = d_body ticketData /\ sender m = lit "user" /\
    supportTickets (r.1.1) = stored :: supportTickets store /\
    length (supportTickets (r.1.1)) = S (length (supportTickets store)) /\
    t_status stored = lit "open" /\ messages stored = [m] /\
    body stored = d_body ticketData /\
    currentUser (r.1.1) = currentUser store /\
    services (r.1.1) = services store /\
    notifications (r.1.1) = notifications store /\
    h_error (r.1.2) = None /\ h_loading (r.1.2) = false.
Proof.
  intros Hd api r. subst api r.
  unfold useSupportTickets.createTicket, useSupportTickets.createTicket_on,
    MockApi.createSupportTicket, MockApi.createSupportTicket_at,
    MockApi.simulateRequest.
  rewrite (shouldSimulateError_passes _ _ Hd).
  cbn [success data fst snd].
  eexists _, _, _.
  repeat split; reflexivity.
Qed.

Lemma create_ticket_prepends_open_ticket_witness :
  exists (stored : SupportTicket) (m : TicketMessage),
    supportTickets
      ((useSupportTickets.createTicket (1 # 2) (lit "K3X9Q")
          (lit "2025-07-25T08:00:00Z") (lit "2025-07-25T08:00:00Z")
          (lit "2025-07-25T08:00:00Z") sampleTicketData (lit "f81hq02zk")
          (lit "2025-07-25T08:00:01Z") (lit "2025-07-25T08:00:01Z")
          loadedStore idle).1.1)
    = stored :: MockApi.mockTickets /\
    t_status stored = lit "open" /\ messages stored = [m] /\
    m_message m = lit "The site has been down since noon.".
Proof.
  assert (Hdraw : (MockApi.defaultChance <= 1 # 2)%Q).
  { unfold Qle. simpl. lia. }
  destruct (create_ticket_prepends_open_ticket (1 # 2) (lit "K3X9Q")
              (lit "2025-07-25T08:00:00Z") (lit "2025-07-25T08:00:00Z")
              (lit "2025-07-25T08:00:00Z") (lit "f81hq02zk")
              (lit "2025-07-25T08:00:01Z") (lit "2025-07-25T08:00:01Z")
              sampleTicketData loadedStore idle Hdraw)
    as (created & stored & m & _ & _ & _ & _ & _ & Hm & _ & Hst & _ & Hopen
        & Hmsgs & _).
  exists stored, m. repeat split; assumption.
Defined.

(** ** Failure paths of the endpoints and of the hooks *)

(** With probability 1 the comparison succeeds for every draw of
    [Math.random()]. *)
Lemma certain_failure (draw : Q) :
  (draw < 1)%Q -> MockApi.shouldSimulateError draw 1 = true.
Proof. apply shouldSimulateError_fires. Qed.

Ltac endpoint_fails H :=
  unfold MockApi.login_at, MockApi.getProfile_at, MockApi.updateProfile_at,
    MockApi.getServices_at, MockApi.toggleAutoRenew_at,
    MockApi.getSupportTickets_at, MockApi.createSupportTicket_at,
    MockApi.getNotifications_at, MockApi.getInvoices_at,
    MockApi.getPaymentMethods_at, MockApi.getDnsRecords_at;
  rewrite H; repeat split; reflexivity.

(** C6. Configured with failure probability 1, every endpoint that draws
    for a failure rejects with its error message on every call, for every
    draw in [[0,1)]; the hook that awaits it leaves the store and its data
    alone and sets its error state to that message. *)
Theorem certain_failure_reaches_hook (draw : Q) :
  (0 <= draw)%Q -> (draw < 1)%Q ->
  (forall nowMs email password,
      MockApi.login_at 1 draw nowMs email password
      = Threw (lit "Network error. Please try again.")) /\
  (forall store h,
      let m := lit "Failed to load profile" in
      MockApi.getProfile_at 1 draw = Threw m /\
      useProfile.loadProfile_on (MockApi.getProfile_at 1 draw) store h
      = (store, {| h_loading := false; h_error := Some m |})) /\
  (forall now profileData store h,
      let m := lit "Failed to update profile" in
      let api := MockApi.updateProfile_at 1 draw now profileData in
      api = Threw m /\
      useProfile.updateProfile_on api store h
      = (store, {| h_loading := false; h_error := Some m |}, Threw m)) /\
  (forall store h,
      let m := lit "Failed to load services" in
      MockApi.getServices_at 1 draw = Threw m /\
      useServices.loadServices_on (MockApi.getServices_at 1 draw) store h
      = (store, {| h_loading := false; h_error := Some m |})) /\
  (forall now serviceId autoRenew rendered store h,
      let m := lit "Failed to update auto-renewal setting" in
      let api := MockApi.toggleAutoRenew_at 1 draw now serviceId autoRenew in
      api = Threw m /\
      useServices.toggleAutoRenew_on api serviceId autoRenew rendered store h
      = (store, {| h_loading := h_loading h; h_error := Some m |}, Threw m)) /\
  (forall store h,
      let m := lit "Failed to load support tickets" in
      MockApi.getSupportTickets_at 1 draw = Threw m /\
      useSupportTickets.loadTickets_on (MockApi.getSupportTickets_at 1 draw)
        store h
      = (store, {| h_loading := false; h_error := Some m |})) /\
  (forall randomId now1 now2 now3 ticketData randomId2 now4 now5 store h,
      let m := lit "Failed to create support ticket" in
      let api := MockApi.createSupportTicket_at 1 draw randomId now1 now2 now3
                   ticketData in
      api = Threw m /\
      useSupportTickets.createTicket_on api randomId2 now4 now5 store h
      = (store, {| h_loading := false; h_error := Some m |}, Threw m)) /\
  (forall store h,
      let m := lit "Failed to load notifications" in
      MockApi.getNotifications_at 1 draw = Threw m /\
      useNotifications.loadNotifications_on (MockApi.getNotifications_at 1 draw)
        store h
      = (store, {| h_loading := false; h_error := Some m |})) /\
  (forall st,
      let m := lit "Failed to load invoices" in
      MockApi.getInvoices_at 1 draw = Threw m /\
      useBilling.loadInvoices_on (MockApi.getInvoices_at 1 draw) st
      = {| useBilling.invoices := useBilling.invoices st;
           useBilling.paymentMethods := useBilling.paymentMethods st;
           useBilling.hook := {| h_loading := false; h_error := Some m |} |}) /\
  (forall st,
      let m := lit "Failed to load payment methods" in
      MockApi.getPaymentMethods_at 1 draw = Threw m /\
      useBilling.loadPaymentMethods_on (MockApi.getPaymentMethods_at 1 draw) st
      = {| useBilling.invoices := useBilling.invoices st;
           useBilling.paymentMethods := useBilling.paymentMethods st;
           useBilling.hook := {| h_loading := false; h_error := Some m |} |}) /\
  (forall id st,
      let m := lit "Failed to load DNS records" in
      MockApi.getDnsRecords_at 1 draw id = Threw m /\
      useDNS.loadDnsRecords_on (MockApi.getDnsRecords_at 1 draw id) st
      = {| useDNS.records := useDNS.records st;
           useDNS.hook := {| h_loading := false; h_error := Some m |} |}).
Proof.
  intros _ Hlt. pose proof (certain_failure draw Hlt) as H.
  repeat match goal with |- _ /\ _ => split end; intros;
    repeat match goal with x := _ |- _ => subst x end; endpoint_fails H.
Qed.

Lemma certain_failure_reaches_hook_witness :
  useServices.loadServices_on (MockApi.getServices_at 1 (999 # 1000))
    loadedStore idle
  = (loadedStore,
     {| h_loading := false; h_error := Some (lit "Failed to load services") |})
  /\
  useServices.loadServices_on (MockApi.getServices_at 1 0) loadedStore idle
  = (loadedStore,
     {| h_loading := false; h_error := Some (lit "Failed to load services") |}).
Proof.
  assert (H0 : (0 <= 999 # 1000)%Q) by (unfold Qle; simpl; lia).
  assert (H1 : (999 # 1000 < 1)%Q) by (unfold Qlt; simpl; lia).
  assert (H2 : (0 <= 0)%Q) by (unfold Qle; simpl; lia).
  assert (H3 : (0 < 1)%Q) by (unfold Qlt; simpl; lia).
  pose proof (certain_failure_reaches_hook (999 # 1000) H0 H1)
    as (_ & _ & _ & Ha & _).
  pose proof (certain_failure_reaches_hook 0 H2 H3) as (_ & _ & _ & Hb & _).
  split; [exact (proj2 (Ha loadedStore idle))
         | exact (proj2 (Hb loadedStore idle))].
Defined.

Ltac hook_fails api Hfail :=
  destruct api as [response | m]; simpl in Hfail; simpl;
  [rewrite Hfail; simpl |]; repeat split; eauto.

(** C7. When the awaited call fails (it rejects, or it returns
    [success: false]), every hook leaves the store, and with it the user,
    the services, the tickets and the notifications, and its own lists
    (invoices, payment methods, DNS records) exactly as they were; it sets
    its error string, and the loaders clear their loading flag. *)
Theorem failed_fetch_keeps_data
    (store : AppState) (h : HookState)
    (billing : useBilling.State) (dns : useDNS.State) :
  (forall api, failed api ->
      let r := useProfile.loadProfile_on api store h in
      r.1 = store /\ is_Some (h_error (r.2)) /\ h_loading (r.2) = false) /\
  (forall api, failed api ->
      let r := useProfile.updateProfile_on api store h in
      r.1.1 = store /\ is_Some (h_error (r.1.2)) /\
      h_loading (r.1.2) = false) /\
  (forall api, failed api ->
      let r := useServices.loadServices_on api store h in
      r.1 = store /\ is_Some (h_error (r.2)) /\ h_loading (r.2) = false) /\
  (forall api serviceId autoRenew rendered, failed api ->
      let r := useServices.toggleAutoRenew_on api serviceId autoRenew
                 rendered store h in
      r.1.1 = store /\ is_Some (h_error (r.1.2)) /\
      h_loading (r.1.2) = h_loading h /\ exists m, r.2 = Threw m) /\
  (forall api, failed api ->
      let r := useSupportTickets.loadTickets_on api store h in
      r.1 = store /\ is_Some (h_error (r.2)) /\ h_loading (r.2) = false) /\
  (forall api randomId2 now4 now5, failed api ->
      let r := useSupportTickets.createTicket_on api randomId2 now4 now5
                 store h in
      r.1.1 = store /\ is_Some (h_error (r.1.2)) /\
      h_loading (r.1.2) = false) /\
  (forall api, failed api ->
      let r := useNotifications.loadNotifications_on api store h in
      r.1 = store /\ is_Some (h_error (r.2)) /\ h_loading (r.2) = false) /\
  (forall api notificationId, failed api ->
      let r := useNotifications.markAsRead_on api notificationId store h in
      r.1.1 = store /\ is_Some (h_error (r.1.2)) /\
      h_loading (r.1.2) = h_loading h /\ exists m, r.2 = Threw m) /\
  (forall api, failed api ->
      let b := useBilling.loadInvoices_on api billing in
      useBilling.invoices b = useBilling.invoices billing /\
      useBilling.paymentMethods b = useBilling.paymentMethods billing /\
      is_Some (h_error (useBilling.hook b)) /\
      h_loading (useBilling.hook b) = false) /\
  (forall api, failed api ->
      let b := useBilling.loadPaymentMethods_on api billing in
      useBilling.invoices b = useBilling.invoices billing /\
      useBilling.paymentMethods b = useBilling.paymentMethods billing /\
      is_Some (h_error (useBilling.hook b)) /\
      h_loading (useBilling.hook b) = false) /\
  (forall api, failed api ->
      let d := useDNS.loadDnsRecords_on api dns in
      useDNS.records d = useDNS.records dns /\
      is_Some (h_error (useDNS.hook d)) /\
      h_loading (useDNS.hook d) = false).
Proof.
  repeat match goal with |- _ /\ _ => split end; intros api;
    intros; repeat match goal with x := _ |- _ => subst x end;
    unfold useProfile.loadProfile_on, useProfile.updateProfile_on,
      useServices.loadServices_on, useServices.toggleAutoRenew_on,
      useSupportTickets.loadTickets_on, useSupportTickets.createTicket_on,
      useNotifications.loadNotifications_on, useNotifications.markAsRead_on,
      useBilling.loadInvoices_on, useBilling.loadPaymentMethods_on,
      useDNS.loadDnsRecords_on;
    match goal with Hf : failed api |- _ => hook_fails api Hf end.
Qed.

Lemma failed_fetch_keeps_data_witness :
  (useServices.loadServices_on (Threw (lit "Failed to load services"))
     loadedStore idle).1 = loadedStore /\
  (useNotifications.loadNotifications_on
     (Returned {| success := false; data := []; message := None |})
     loadedStore idle).1 = loadedStore /\
  useBilling.invoices
    (useBilling.loadInvoices_on (Threw (lit "Failed to load invoices"))
       (useBilling.setInvoices MockApi.mockInvoices useBilling.initial))
  = MockApi.mockInvoices.
Proof.
  pose proof (failed_fetch_keeps_data loadedStore idle
                (useBilling.setInvoices MockApi.mockInvoices useBilling.initial)
                useDNS.initial)
    as (_ & _ & Hs & _ & _ & _ & Hn & _ & Hb & _).
  split; [exact (proj1 (Hs (Threw (lit "Failed to load services")) I)) |].
  split; [exact (proj1 (Hn (Returned {| success := false; data := [];
                                        message := None |}) eq_refl)) |].
  exact (proj1 (Hb (Threw (lit "Failed to load invoices")) I)).
Defined.

(** ** Shapes of the API surface *)

Ltac endpoint_shape :=
  intros;
  unfold MockApi.login, MockApi.getProfile, MockApi.updateProfile,
    MockApi.getServices, MockApi.toggleAutoRenew, MockApi.getSupportTickets,
    MockApi.createSupportTicket, MockApi.getNotifications,
    MockApi.getInvoices, MockApi.getPaymentMethods, MockApi.getDnsRecords,
    MockApi.login_at, MockApi.getProfile_at, MockApi.updateProfile_at,
    MockApi.getServices_at, MockApi.toggleAutoRenew_at,
    MockApi.getSupportTickets_at, MockApi.createSupportTicket_at,
    MockApi.getNotifications_at, MockApi.getInvoices_at,
    MockApi.getPaymentMethods_at, MockApi.getDnsRecords_at;
  match goal with
  | |- context [MockApi.shouldSimulateError ?d ?c] =>
      destruct (MockApi.shouldSimulateError d c)
  | _ => idtac
  end;
  try reflexivity.

(** C8, as the code has it. An operation of the mock API either rejects
    with an [Error] carrying a message, which is how every injected failure
    is delivered (when the draw is below the probability of the endpoint),
    or it returns an object with [success]: [{ success: true, data }] for
    every operation but [logout], with a [message] besides for
    [updateProfile], [toggleAutoRenew], [createSupportTicket] and
    [markNotificationRead]; [{ success: true, message }] without [data] for
    [logout]; and [{ success: false, message, errors }] for [login] with a
    pair other than the demo one. [logout] and [markNotificationRead] never
    fail. *)
Theorem api_outcome_shapes (draw : Q) :
  let byDefault := MockApi.shouldSimulateError draw MockApi.defaultChance in
  (forall nowMs email password,
      rejectsOrReturns shapeOfLogin
        (MockApi.shouldSimulateError draw MockApi.loginChance)
        (lit "Network error. Please try again.")
        (if bool_decide (email = lit "john.doe@example.com")
            && bool_decide (password = lit "password123")
         then okData false else rejected)
        (MockApi.login draw nowMs email password)) /\
  outcomeShape shapeOfLogout MockApi.logout = Returned okMessage /\
  rejectsOrReturns shapeOfResponse byDefault (lit "Failed to load profile")
    (okData false) (MockApi.getProfile draw) /\
  (forall now profileData,
      rejectsOrReturns shapeOfResponse byDefault
        (lit "Failed to update profile") (okData true)
        (MockApi.updateProfile draw now profileData)) /\
  rejectsOrReturns shapeOfResponse byDefault (lit "Failed to load services")
    (okData false) (MockApi.getServices draw) /\
  (forall now serviceId autoRenew,
      rejectsOrReturns shapeOfResponse byDefault
        (lit "Failed to update auto-renewal setting") (okData true)
        (MockApi.toggleAutoRenew draw now serviceId autoRenew)) /\
  rejectsOrReturns shapeOfResponse byDefault
    (lit "Failed to load support tickets") (okData false)
    (MockApi.getSupportTickets draw) /\
  (forall randomId now1 now2 now3 ticketData,
      rejectsOrReturns shapeOfResponse byDefault
        (lit "Failed to create support ticket") (okData true)
        (MockApi.createSupportTicket draw randomId now1 now2 now3 ticketData))
  /\
  rejectsOrReturns shapeOfResponse byDefault
    (lit "Failed to load notifications") (okData false)
    (MockApi.getNotifications draw) /\
  (forall notificationId,
      outcomeShape shapeOfResponse (MockApi.markNotificationRead notificationId)
      = Returned (okData true)) /\
  rejectsOrReturns shapeOfResponse byDefault (lit "Failed to load invoices")
    (okData false) (MockApi.getInvoices draw) /\
  rejectsOrReturns shapeOfResponse byDefault
    (lit "Failed to load payment methods") (okData false)
    (MockApi.getPaymentMethods draw) /\
  (forall domainId,
      rejectsOrReturns shapeOfResponse byDefault
        (lit "Failed to load DNS records") (okData false)
        (MockApi.getDnsRecords draw domainId)).
Proof.
  intros byDefault. subst byDefault. unfold rejectsOrReturns.
  split.
  { intros nowMs e p. unfold MockApi.login, MockApi.login_at.
    destruct (MockApi.shouldSimulateError draw MockApi.loginChance);
      [reflexivity |].
    destruct (bool_decide (e = lit "john.doe@example.com")
              && bool_decide (p = lit "password123")); reflexivity. }
  repeat match goal with |- _ /\ _ => split end; endpoint_shape.
Qed.

(** C8 as stated fails: an injected failure is not a returned value of
    either shape but a rejection, and [logout] returns an object that has
    neither [data] nor [errors]. *)
Lemma api_failure_is_thrown_counterexample :
  MockApi.getServices 0 = Threw (lit "Failed to load services") /\
  ~ deliversValue (outcomeShape shapeOfResponse (MockApi.getServices 0)) /\
  ~ deliversValue (outcomeShape shapeOfLogout MockApi.logout).
Proof.
  split; [reflexivity |]. split.
  - intros [sh [H _]]. discriminate H.
  - intros [sh [H Hc]]. injection H as <-.
    destruct Hc as [Hd | [Hs _]]; discriminate.
Qed.

(** * Further properties of the store *)

Lemma countUnread_le_length (l : list Notification) :
  countUnread l <= length l.
Proof.
  induction l as [| n l IH]; simpl; [lia |]. destruct (read n); lia.
Qed.

Lemma invariant_step (s : AppState) (a : AppAction) :
  invariant s -> invariant (appReducer s a).
Proof.
  intros Hinv. pose proof (notification_actions_establish s a) as H.
  destruct a; try exact H; destruct H as [Hn Hc];
    unfold invariant; rewrite Hn, Hc; exact Hinv.
Qed.

Lemma invariant_fold (actions : list AppAction) (s : AppState) :
  invariant s -> invariant (fold_left appReducer actions s).
Proof.
  revert s. induction actions as [| a actions IH]; intros s Hs; [exact Hs |].
  simpl. apply IH, invariant_step, Hs.
Qed.

(** X1. Whatever sequence of actions is dispatched from the initial state,
    the unread counter of the state reached equals the number of unread
    notifications, and so never exceeds the number of notifications. *)
Theorem unread_count_in_every_reachable_state (actions : list AppAction) :
  let s := fold_left appReducer actions initialState in
  unreadNotificationCount s = countUnread (notifications s) /\
  unreadNotificationCount s <= length (notifications s).
Proof.
  intros s.
  assert (H : invariant s) by (apply invariant_fold; reflexivity).
  split; [exact H |]. rewrite H. apply countUnread_le_length.
Qed.

Section UpdateById.
(** The two update actions replace by id with the same [map]. *)
Context {A : Type} (key : A -> jsstring) (payload : A).

Let replace (x : A) : A := if decide (key x = key payload) then payload else x.

Lemma replace_eq (x : A) : key x = key payload -> replace x = payload.
Proof.
  intros H. unfold replace.
  destruct (decide (key x = key payload)); [reflexivity | contradiction].
Qed.

Lemma replace_ne (x : A) : key x <> key payload -> replace x = x.
Proof.
  intros H. unfold replace.
  destruct (decide (key x = key payload)); [contradiction | reflexivity].
Qed.

Lemma replace_absent (l : list A) :
  Forall (fun x => key x <> key payload) l -> map replace l = l.
Proof.
  induction 1 as [| x l Hx _ IH]; simpl; [reflexivity |].
  rewrite IH, (replace_ne x Hx). reflexivity.
Qed.

Lemma replace_idempotent (l : list A) :
  map replace (map replace l) = map replace l.
Proof.
  rewrite map_map. apply map_ext. intros x.
  destruct (decide (key x = key payload)) as [He | Hne].
  - rewrite (replace_eq x He). apply replace_eq. reflexivity.
  - rewrite !(replace_ne x Hne). reflexivity.
Qed.

Lemma replace_hit (l : list A) (x : A) :
  In x (map replace l) -> key x = key payload -> x = payload.
Proof.
  intros Hin Hk. apply in_map_iff in Hin as (y & Hy & _). subst x.
  destruct (decide (key y = key payload)) as [He | Hne].
  - apply replace_eq, He.
  - rewrite (replace_ne y Hne) in Hk. contradiction.
Qed.

Lemma replace_find (l : list A) :
  Exists (fun x => key x = key payload) l ->
  List.find (fun x => bool_decide (key x = key payload)) (map replace l)
  = Some payload.
Proof.
  induction 1 as [x l Hx | x l _ IH]; simpl.
  - rewrite (replace_eq x Hx).
    rewrite bool_decide_eq_true_2 by reflexivity. reflexivity.
  - destruct (decide (key x = key payload)) as [He | Hne].
    + rewrite (replace_eq x He).
      rewrite bool_decide_eq_true_2 by reflexivity. reflexivity.
    + rewrite (replace_ne x Hne).
      rewrite bool_decide_eq_false_2 by exact Hne. exact IH.
Qed.

End UpdateById.

(** X2. Updating a service, or a ticket, whose id no entry of the
    collection carries leaves the whole state as it was: the update actions
    never insert. *)
Theorem update_of_absent_id_changes_nothing
    (s : AppState) (service : Service) (ticket : SupportTicket) :
  (Forall (fun x => s_id x <> s_id service) (services s) ->
   appReducer s (UPDATE_SERVICE service) = s) /\
  (Forall (fun x => t_id x <> t_id ticket) (supportTickets s) ->
   appReducer s (UPDATE_SUPPORT_TICKET ticket) = s).
Proof.
  destruct s as [u ns c ss ts ld er]. simpl. split; intros H; f_equal.
  - apply (replace_absent s_id service ss H).
  - apply (replace_absent t_id ticket ts H).
Qed.

Lemma update_of_absent_id_changes_nothing_witness :
  appReducer loadedStore
    (UPDATE_SERVICE (with_autoRenew sampleService false)) = loadedStore.
Proof.
  apply (proj1 (update_of_absent_id_changes_nothing loadedStore
                  (with_autoRenew sampleService false) sampleTicket)).
  repeat constructor; intros H; discriminate H.
Defined.

(** X3. After [UPDATE_SERVICE] every entry of the collection that carries
    the id of the payload is the payload, looking the id up finds the
    payload whenever the id was present, and dispatching the same update
    again changes nothing; likewise for [UPDATE_SUPPORT_TICKET]. *)
Theorem update_then_lookup
    (s : AppState) (service : Service) (ticket : SupportTicket) :
  let s1 := appReducer s (UPDATE_SERVICE service) in
  let s2 := appReducer s (UPDATE_SUPPORT_TICKET ticket) in
  (appReducer s1 (UPDATE_SERVICE service) = s1 /\
   (forall x, In x (services s1) -> s_id x = s_id service -> x = service) /\
   (Exists (fun x => s_id x = s_id service) (services s) ->
    List.find (fun x => bool_decide (s_id x = s_id service)) (services s1)
    = Some service)) /\
  (appReducer s2 (UPDATE_SUPPORT_TICKET ticket) = s2 /\
   (forall x, In x (supportTickets s2) -> t_id x = t_id ticket -> x = ticket) /\
   (Exists (fun x => t_id x = t_id ticket) (supportTickets s) ->
    List.find (fun x => bool_decide (t_id x = t_id ticket)) (supportTickets s2)
    = Some ticket)).
Proof.
  simpl. split; (split; [f_equal | split]).
  - apply (replace_idempotent s_id service).
  - apply (replace_hit s_id service).
  - apply (replace_find s_id service).
  - apply (replace_idempotent t_id ticket).
  - apply (replace_hit t_id ticket).
  - apply (replace_find t_id ticket).
Qed.

Lemma update_then_lookup_witness :
  let renewed := with_autoRenew (hd sampleService MockApi.mockServices) false in
  List.find (fun x => bool_decide (s_id x = lit "1"))
    (services (appReducer loadedStore (UPDATE_SERVICE renewed)))
  = Some renewed.
Proof.
  intros renewed.
  destruct (update_then_lookup loadedStore renewed sampleTicket)
    as [[_ [_ H]] _].
  apply H. left. reflexivity.
Defined.

(** ** Reading notifications *)

Lemma countUnread_mark (id : jsstring) (l : list Notification) :
  countUnread
    (map (fun n => if decide (n_id n = id) then with_read n true else n) l)
  + length (List.filter
              (fun n => negb (read n) && bool_decide (n_id n = id)) l)
  = countUnread l.
Proof.
  induction l as [| n l IH]; simpl; [reflexivity |].
  destruct (decide (n_id n = id)) as [He | Hne].
  - rewrite (bool_decide_eq_true_2 _ He). simpl.
    destruct (read n); simpl; lia.
  - rewrite (bool_decide_eq_false_2 _ Hne), andb_false_r.
    destruct (read n); simpl; lia.
Qed.

Lemma mark_absent (id : jsstring) (l : list Notification) :
  Forall (fun n => n_id n <> id) l ->
  map (fun n => if decide (n_id n = id) then with_read n true else n) l = l.
Proof.
  induction 1 as [| n l Hn _ IH]; simpl; [reflexivity |].
  rewrite IH. destruct (decide (n_id n = id)); [contradiction | reflexivity].
Qed.

(** X4. Marking a notification as read through the hook always succeeds
    and leaves the hook's loading flag and error as they were. In a state
    whose counter is right, the counter drops by exactly the number of
    unread entries that carry the id; if no entry carries it, the state is
    unchanged. *)
Theorem mark_as_read_counts_down
    (id : jsstring) (store : AppState) (h : HookState) :
  invariant store ->
  let r := useNotifications.markAsRead id store h in
  (exists response, r.2 = Returned response /\ success response = true) /\
  r.1.2 = h /\
  unreadNotificationCount (r.1.1)
  + length (List.filter
              (fun n => negb (read n) && bool_decide (n_id n = id))
              (notifications store))
  = unreadNotificationCount store /\
  (Forall (fun n => n_id n <> id) (notifications store) -> r.1.1 = store).
Proof.
  intros Hinv r. subst r.
  unfold useNotifications.markAsRead, useNotifications.markAsRead_on,
    MockApi.markNotificationRead, MockApi.simulateRequest.
  cbn [success fst snd]. split; [eexists; split; reflexivity |].
  split; [reflexivity |].
  unfold markNotificationRead. simpl. rewrite unreadOf_countUnread, Hinv.
  split; [apply countUnread_mark |].
  intros Habs. rewrite (mark_absent id _ Habs).
  destruct store; simpl in *. unfold invariant in Hinv. simpl in Hinv.
  rewrite <- Hinv. reflexivity.
Qed.

Lemma mark_as_read_counts_down_witness :
  let store := appReducer initialState
                 (SET_NOTIFICATIONS MockApi.mockNotifications) in
  unreadNotificationCount store = 2 /\
  unreadNotificationCount
    ((useNotifications.markAsRead (lit "2") store idle).1.1) = 1 /\
  (useNotifications.markAsRead (lit "9") store idle).1.1 = store.
Proof.
  intros store.
  assert (Hinv : invariant store) by reflexivity.
  destruct (mark_as_read_counts_down (lit "2") store idle Hinv)
    as (_ & _ & Hcount & _).
  destruct (mark_as_read_counts_down (lit "9") store idle Hinv)
    as (_ & _ & _ & Habs).
  split; [reflexivity |]. split.
  - change (unreadNotificationCount store) with 2 in Hcount.
    simpl length in Hcount. lia.
  - apply Habs. repeat constructor; intros H; discriminate H.
Defined.

(** The notifications after the dispatches of a notification click: an
    entry is marked when the render showed an unread notification with its
    id. *)
Lemma click_notifications (shown : list Notification) (store : AppState) :
  let st := fold_left
              (fun st n => if negb (read n)
                           then markNotificationRead (n_id n) st else st)
              shown store in
  notifications st
  = map (fun n =>
           if existsb (fun m => negb (read m) && bool_decide (n_id m = n_id n))
                      shown
           then with_read n true else n)
        (notifications store) /\
  currentUser st = currentUser store /\ services st = services store /\
  supportTickets st = supportTickets store /\ loading st = loading store /\
  error st = error store /\
  (invariant store -> invariant st).
Proof.
  revert store. induction shown as [| m shown IH]; intros store; simpl.
  - split; [symmetry; apply map_id |]. repeat split; auto.
  - destruct (read m) eqn:Hm; simpl.
    + exact (IH store).
    + destruct (IH (markNotificationRead (n_id m) store))
        as (Hn & Hu & Hs & Ht & Hl & He & Hi).
      split.
      { rewrite Hn. simpl. rewrite map_map. apply map_ext. intros n.
        destruct (decide (n_id n = n_id m)) as [Heq | Hne].
        - rewrite (bool_decide_eq_true_2 _ (eq_sym Heq)). simpl.
          destruct (existsb _ shown); reflexivity.
        - rewrite (bool_decide_eq_false_2 (n_id m = n_id n))
            by (intros H; apply Hne; symmetry; exact H).
          reflexivity. }
      repeat split; auto.
      intros _. apply Hi. unfold markNotificationRead.
      exact (notification_actions_establish store
               (MARK_NOTIFICATION_READ (n_id m))).
Qed.

(** X5. A click on the bell marks everything the render showed as unread:
    when every unread notification of the store was shown unread (as when
    the store has not changed since the render) and the counter is right,
    afterwards every notification is read and the counter is 0, while the
    ids and their order, and the rest of the store, are as before. *)
Theorem notification_click_reads_all (rendered store : AppState) :
  invariant store ->
  (forall n, In n (notifications store) -> read n = false ->
     exists m, In m (notifications rendered) /\ read m = false /\
               n_id m = n_id n) ->
  let st := Pages.handleNotificationClick rendered store in
  Forall (fun n => read n = true) (notifications st) /\
  unreadNotificationCount st = 0 /\
  map n_id (notifications st) = map n_id (notifications store) /\
  currentUser st = currentUser store /\ services st = services store /\
  supportTickets st = supportTickets store.
Proof.
  intros Hinv Hshown st. subst st. unfold Pages.handleNotificationClick.
  destruct (click_notifications (notifications rendered) store)
    as (Hn & Hu & Hs & Ht & _ & _ & Hi).
  assert (Hall : Forall (fun n => read n = true)
                   (notifications
                      (fold_left
                         (fun st n => if negb (read n)
                                      then markNotificationRead (n_id n) st
                                      else st)
                         (notifications rendered) store))).
  { rewrite Hn. apply Forall_forall. intros x Hx.
    apply list_elem_of_In, in_map_iff in Hx as (n & <- & Hin).
    destruct (existsb _ (notifications rendered)) eqn:Hex; [reflexivity |].
    destruct (read n) eqn:Hr; [reflexivity |].
    destruct (Hshown n Hin Hr) as (m & Hm & Hmr & Hid).
    assert (Htrue : existsb (fun m => negb (read m)
                                      && bool_decide (n_id m = n_id n))
                      (notifications rendered) = true).
    { apply existsb_exists. exists m. split; [exact Hm |].
      rewrite Hmr, (bool_decide_eq_true_2 _ Hid). reflexivity. }
    congruence. }
  split; [exact Hall |]. split.
  - rewrite (Hi Hinv). clear - Hall.
    induction Hall as [| n l Hr _ IH]; simpl; [reflexivity |].
    rewrite Hr. exact IH.
  - split; [| auto]. rewrite Hn, map_map. apply map_ext. intros n.
    destruct (existsb _ _); reflexivity.
Qed.

Lemma notification_click_reads_all_witness :
  let store := appReducer initialState
                 (SET_NOTIFICATIONS MockApi.mockNotifications) in
  unreadNotificationCount store = 2 /\
  unreadNotificationCount (Pages.handleNotificationClick store store) = 0 /\
  length (notifications (Pages.handleNotificationClick store store)) = 3.
Proof.
  intros store.
  assert (Hinv : invariant store) by reflexivity.
  assert (Hshown : forall n, In n (notifications store) -> read n = false ->
            exists m, In m (notifications store) /\ read m = false /\
                      n_id m = n_id n).
  { intros n Hin Hr. exists n. auto. }
  destruct (notification_click_reads_all store store Hinv Hshown)
    as (_ & Hzero & _).
  split; [reflexivity |]. split; [exact Hzero | reflexivity].
Defined.

(** X21. [addNotification] puts the notification in front of the list,
    under the id and the time stamp drawn for it and with its other fields
    as given; in a state whose counter is right the counter goes up by one
    when the notification is unread and stays when it is read, and the
    notifications already there are untouched. *)
Theorem add_notification_counts
    (randomId now : jsstring) (notification : Notification)
    (state : AppState) :
  invariant state ->
  let st := addNotification randomId now notification state in
  exists added,
    notifications st = added :: notifications state /\
    n_id added = randomId /\ n_timestamp added = now /\
    read added = read notification /\ title added = title notification /\
    n_message added = n_message notification /\
    n_type added = n_type notification /\
    actionUrl added = actionUrl notification /\
    unreadNotificationCount st
    = unreadNotificationCount state + (if read notification then 0 else 1) /\
    invariant st.
Proof.
  intros Hinv st. subst st. unfold addNotification. eexists.
  split; [reflexivity |]. repeat (split; [reflexivity |]).
  split.
  - cbn [appReducer unreadNotificationCount].
    rewrite unreadOf_countUnread, Hinv. cbn [countUnread read]. lia.
  - exact (notification_actions_establish state (ADD_NOTIFICATION _)).
Qed.

Lemma add_notification_counts_witness :
  unreadNotificationCount
    (addNotification (lit "k2j4h5g6f") (lit "2025-07-26T09:00:00Z")
       sampleNotification
       (appReducer initialState
          (SET_NOTIFICATIONS MockApi.mockNotifications))) = 3.
Proof.
  destruct (add_notification_counts (lit "k2j4h5g6f")
              (lit "2025-07-26T09:00:00Z") sampleNotification
              (appReducer initialState
                 (SET_NOTIFICATIONS MockApi.mockNotifications)) eq_refl)
    as (added & _ & _ & _ & _ & _ & _ & _ & _ & Hcount & _).
  rewrite Hcount. reflexivity.
Defined.

(** ** Further properties of the form field *)

Section FormFieldRules.
Import FormField.

Lemma message_nonempty (who s : jsstring) : s <> [] -> who ++ s <> [].
Proof. intros Hs H. apply app_eq_nil in H as [_ H]. contradiction. Qed.

Lemma truthy_false (s : jsstring) : truthy s = false <-> s = [].
Proof. destruct s; simpl; split; congruence. Qed.

Lemma truthyBool_true (b : option bool) : truthyBool b = true <-> b = Some true.
Proof. destruct b as [[|] |]; simpl; split; congruence. Qed.

Lemma required_passes (rules : ValidationRules) (v : jsstring) :
  truthyBool (required rules) && negb (truthy (trim v)) = false <->
  ~ (required rules = Some true /\ whitespaceOnly v).
Proof.
  rewrite andb_false_iff, negb_false_iff. unfold whitespaceOnly.
  rewrite <- trim_nil_iff, <- truthyBool_true, <- truthy_false.
  destruct (truthyBool (required rules)), (truthy (trim v));
    intuition congruence.
Qed.

Lemma minLength_passes (rules : ValidationRules) (v : jsstring) :
  match minLength rules with
  | Some m => negb (m =? 0)%Z && (Z.of_nat (length v) <? m)%Z
  | None => false
  end = false <->
  (forall m, minLength rules = Some m -> m <> 0%Z ->
             (m <= Z.of_nat (length v))%Z).
Proof.
  destruct (minLength rules) as [m |]; [| split; [discriminate | reflexivity]].
  rewrite andb_false_iff, negb_false_iff, Z.eqb_eq, Z.ltb_ge. split.
  - intros H m' [= <-] Hm. destruct H; [contradiction | assumption].
  - intros H. destruct (decide (m = 0%Z)); [left | right]; auto.
Qed.

Lemma maxLength_passes (rules : ValidationRules) (v : jsstring) :
  match maxLength rules with
  | Some m => negb (m =? 0)%Z && (m <? Z.of_nat (length v))%Z
  | None => false
  end = false <->
  (forall m, maxLength rules = Some m -> m <> 0%Z ->
             (Z.of_nat (length v) <= m)%Z).
Proof.
  destruct (maxLength rules) as [m |]; [| split; [discriminate | reflexivity]].
  rewrite andb_false_iff, negb_false_iff, Z.eqb_eq, Z.ltb_ge. split.
  - intros H m' [= <-] Hm. destruct H; [contradiction | assumption].
  - intros H. destruct (decide (m = 0%Z)); [left | right]; auto.
Qed.

Lemma pattern_passes (rules : ValidationRules) (v : jsstring) :
  match pattern rules with
  | Some test => truthy v && negb (test v)
  | None => false
  end = false <->
  (forall test, pattern rules = Some test -> v <> [] -> test v = true).
Proof.
  destruct (pattern rules) as [test |]; [| split; [discriminate | reflexivity]].
  rewrite andb_false_iff, negb_false_iff, truthy_false. split.
  - intros H t [= <-] Hv. destruct H; [contradiction | assumption].
  - intros H. destruct v as [| c v]; [left; reflexivity | right].
    apply H; [reflexivity | discriminate].
Qed.

Lemma custom_passes (rules : ValidationRules) (v : jsstring) :
  match custom rules with
  | Some f =>
      match f v with
      | Some customError => if truthy customError then customError else []
      | None => []
      end
  | None => []
  end = [] <->
  (forall f e, custom rules = Some f -> f v = Some e -> e = []).
Proof.
  destruct (custom rules) as [f |]; [| split; [discriminate | reflexivity]].
  destruct (f v) as [[| c e] |] eqn:Hf; simpl; split; try reflexivity;
    try discriminate.
  - intros _ f' e' [= <-] He. rewrite Hf in He. injection He as <-.
    reflexivity.
  - intros H. specialize (H f (c :: e) eq_refl Hf). discriminate.
  - intros _ f' e' [= <-] He. rewrite Hf in He. discriminate.
Qed.

(** X6. [validate] returns the empty string exactly when no rule fails:
    not (required and blank), length within a non-zero [minLength] and a
    non-zero [maxLength], the pattern matched unless the value is empty,
    and no non-empty message from the custom predicate. A failing rule
    never yields an empty message, so the empty string always means
    valid. *)
Theorem validate_accepts_iff_rules_pass (p : Props) (v : jsstring) :
  validate p v = [] <->
  match validationRules p with
  | None => True
  | Some rules =>
      ~ (required rules = Some true /\ whitespaceOnly v) /\
      (forall m, minLength rules = Some m -> m <> 0%Z ->
                 (m <= Z.of_nat (length v))%Z) /\
      (forall m, maxLength rules = Some m -> m <> 0%Z ->
                 (Z.of_nat (length v) <= m)%Z) /\
      (forall test, pattern rules = Some test -> v <> [] -> test v = true) /\
      (forall f e, custom rules = Some f -> f v = Some e -> e = [])
  end.
Proof.
  unfold validate. destruct (validationRules p) as [rules |]; [| tauto].
  rewrite <- required_passes, <- minLength_passes, <- maxLength_passes,
    <- pattern_passes, <- custom_passes.
  destruct (truthyBool (required rules) && negb (truthy (trim v)));
    [split; [intros H; exfalso; revert H; apply message_nonempty; discriminate
            | intros [H _]; discriminate H] |].
  destruct (match minLength rules with Some _ => _ | None => _ end);
    [split; [intros H; exfalso; revert H; apply message_nonempty; discriminate
            | intros (_ & H & _); discriminate H] |].
  destruct (match maxLength rules with Some _ => _ | None => _ end);
    [split; [intros H; exfalso; revert H; apply message_nonempty; discriminate
            | intros (_ & _ & H & _); discriminate H] |].
  destruct (match pattern rules with Some _ => _ | None => _ end);
    [split; [intros H; exfalso; revert H; apply message_nonempty; discriminate
            | intros (_ & _ & _ & H & _); discriminate H] |].
  tauto.
Qed.

Lemma validate_accepts_iff_rules_pass_witness :
  validate (passwordField (lit "password123")) (lit "password123") = [] /\
  validate (passwordField (lit "short")) (lit "short")
  = lit "Password must be at least 8 characters".
Proof.
  split; [| reflexivity].
  apply (proj2 (validate_accepts_iff_rules_pass
                  (passwordField (lit "password123")) (lit "password123"))).
  simpl. split; [intros [_ Hw]; inversion Hw; discriminate |].
  split; [intros m [= <-] _; simpl; lia |].
  repeat split; intros; discriminate.
Defined.

(** Whether a field is touched after a run of events. *)
Lemma touched_run (es : list Event) (st : State) :
  touched (run st es) = touched st || existsb isBlur es.
Proof.
  revert st. induction es as [| e es IH]; intros st; simpl.
  - rewrite orb_false_r. reflexivity.
  - unfold run in *. simpl. rewrite IH.
    destruct e as [q v | q]; simpl.
    + unfold handleChange. destruct (touched st) eqn:Ht; simpl;
        [reflexivity | rewrite Ht; reflexivity].
    + rewrite orb_true_r. reflexivity.
Qed.

(** X7. Once a field has been blurred it stays touched, and after every
    event from then on the error it stores is the validation of the value
    of that event: the value typed for a change, the value prop for a
    blur. What it displays is that error unless an external error is
    given. *)
Theorem touched_field_revalidates_every_event
    (es : list Event) (e : Event) (q : Props) :
  existsb isBlur (es ++ [e]) = true ->
  let st := run initial (es ++ [e]) in
  touched st = true /\
  internalError st
  = match e with
    | Change p v => validate p v
    | Blur p => validate p (value p)
    end /\
  (truthyString (externalError q) = false ->
   currentError q st = internalError st).
Proof.
  intros Hblur st. subst st. unfold run. rewrite fold_left_app. simpl.
  fold (run initial es).
  assert (Ht : touched (step (run initial es) e) = true).
  { destruct e as [p v | p]; simpl; [| reflexivity].
    rewrite existsb_app in Hblur. simpl in Hblur.
    rewrite !orb_false_r in Hblur.
    unfold handleChange. rewrite touched_run, Hblur. reflexivity. }
  split; [exact Ht |]. split.
  - destruct e as [p v | p]; simpl; [| reflexivity].
    rewrite existsb_app in Hblur. simpl in Hblur.
    rewrite !orb_false_r in Hblur.
    unfold handleChange. rewrite touched_run, Hblur. reflexivity.
  - intros Hext. unfold currentError. rewrite Hext, Ht. reflexivity.
Qed.

Lemma touched_field_revalidates_every_event_witness :
  let st := run initial
              [Change (passwordField []) (lit "pass");
               Blur (passwordField (lit "pass"));
               Change (passwordField (lit "pass")) (lit "password123")] in
  touched st = true /\ internalError st = [] /\
  currentError (passwordField (lit "password123")) st = [].
Proof.
  intros st.
  destruct (touched_field_revalidates_every_event
              [Change (passwordField []) (lit "pass");
               Blur (passwordField (lit "pass"))]
              (Change (passwordField (lit "pass")) (lit "password123"))
              (passwordField (lit "password123")) eq_refl)
    as (Ht & He & Hc).
  subst st. split; [exact Ht |]. split; [exact He |].
  etransitivity; [exact (Hc eq_refl) | exact He].
Defined.

End FormFieldRules.

(** ** Further properties of the mock API and of the hooks *)

(** X8. A created ticket takes category, subject, body and attachments
    from the ticket data, and its priority too unless that is missing or
    empty, in which case it is "medium". The ticket put in the store is not
    the one the caller gets back: it carries the id and the stamps drawn
    when it is stored, not those of the response. *)
Theorem created_ticket_fields
    (draw : Q) (randomId now1 now2 now3 randomId2 now4 now5 : jsstring)
    (ticketData : TicketData) (store : AppState) (h : HookState) :
  (MockApi.defaultChance <= draw)%Q ->
  let r := useSupportTickets.createTicket draw randomId now1 now2 now3
             ticketData randomId2 now4 now5 store h in
  exists (response : Response SupportTicket) (stored : SupportTicket),
    r.2 = Returned response /\
    supportTickets (r.1.1) = stored :: supportTickets store /\
    (t_id (data response) = randomId /\ createdAt (data response) = now1 /\
     updatedAt (data response) = now2) /\
    (t_id stored = randomId2 /\ createdAt stored = now4 /\
     updatedAt stored = now5) /\
    (category stored = d_category ticketData /\
     subject stored = d_subject ticketData /\
     body stored = d_body ticketData /\
     attachments stored = d_attachments ticketData /\
     priority stored = priority (data response)) /\
    (d_priority ticketData = None \/ d_priority ticketData = Some [] ->
     priority stored = lit "medium") /\
    (forall p, d_priority ticketData = Some p -> p <> [] ->
               priority stored = p).
Proof.
  intros Hd r. subst r.
  unfold useSupportTickets.createTicket, useSupportTickets.createTicket_on,
    MockApi.createSupportTicket, MockApi.createSupportTicket_at,
    MockApi.simulateRequest.
  rewrite (shouldSimulateError_passes _ _ Hd).
  cbn [success data fst snd]. eexists _, _.
  split; [reflexivity |]. split; [reflexivity |].
  split; [repeat split |]. split; [repeat split |]. split; [repeat split |].
  cbn [priority]. split.
  - intros [-> | ->]; reflexivity.
  - intros p -> Hp. destruct p; [contradiction | reflexivity].
Qed.

Lemma created_ticket_fields_witness :
  let r := useSupportTickets.createTicket (1 # 2) (lit "K3X9Q")
             (lit "2025-07-25T08:00:00Z") (lit "2025-07-25T08:00:00Z")
             (lit "2025-07-25T08:00:00Z") sampleTicketData (lit "f81hq02zk")
             (lit "2025-07-25T08:00:01Z") (lit "2025-07-25T08:00:01Z")
             loadedStore idle in
  (t_id <$> head (supportTickets (r.1.1))) = Some (lit "f81hq02zk") /\
  (priority <$> head (supportTickets (r.1.1))) = Some (lit "high").
Proof.
  intros r.
  assert (Hdraw : (MockApi.defaultChance <= 1 # 2)%Q).
  { unfold Qle. simpl. lia. }
  destruct (created_ticket_fields (1 # 2) (lit "K3X9Q")
              (lit "2025-07-25T08:00:00Z") (lit "2025-07-25T08:00:00Z")
              (lit "2025-07-25T08:00:00Z") (lit "f81hq02zk")
              (lit "2025-07-25T08:00:01Z") (lit "2025-07-25T08:00:01Z")
              sampleTicketData loadedStore idle Hdraw)
    as (response & stored & _ & Hst & _ & (Hid & _) & _ & _ & Hp).
  subst r. rewrite Hst. simpl. split.
  - f_equal. exact Hid.
  - f_equal. apply Hp; [reflexivity | discriminate].
Defined.






Lemma update_unique (l : list Service) (i : nat) (s p : Service) :
  NoDup (map s_id l) -> l !! i = Some s -> s_id p = s_id s ->
  map (fun x => if decide (s_id x = s_id p) then p else x) l = <[i:=p]> l.
Proof.
  revert i. induction l as [| x l IH]; intros i Hnd Hi Hp; [discriminate |].
  simpl in Hnd. apply list.NoDup_cons in Hnd as [Hx Hnd].
  destruct i as [| i]; simpl in Hi; simpl.
  - injection Hi as ->.
    destruct (decide (s_id s = s_id p)) as [_ | Hne]; [| congruence].
    f_equal. apply (replace_absent s_id p). apply Forall_forall.
    intros y Hy Heq. apply Hx. rewrite <- Hp, <- Heq.
    apply list_elem_of_In, in_map, list_elem_of_In. exact Hy.
  - destruct (decide (s_id x = s_id p)) as [Heq | _].
    + exfalso. apply Hx. rewrite Heq, Hp.
      apply list_elem_of_In, in_map, list_elem_of_In.
      apply list_elem_of_lookup. exists i. exact Hi.
    + f_equal. apply (IH i Hnd Hi Hp).
Qed.

Lemma insert_keeps_ids (l : list Service) (i : nat) (s p : Service) :
  l !! i = Some s -> s_id p = s_id s -> map s_id (<[i:=p]> l) = map s_id l.
Proof.
  revert i. induction l as [| x l IH]; intros i Hi Hp; [reflexivity |].
  destruct i as [| i]; simpl in Hi; simpl.
  - injection Hi as ->. rewrite Hp. reflexivity.
  - f_equal. apply (IH i Hi Hp).
Qed.

Lemma with_autoRenew_back (s : Service) (b : bool) :
  with_autoRenew (with_autoRenew s b) (autoRenew s) = s.
Proof. destruct s; reflexivity. Qed.

(** X11. On a services collection with unique ids, two successful clicks
    on the auto-renew switch of a service card, the second on the card as
    re-rendered after the first, bring the whole store back to what it
    was; after the first click the service holds the opposite flag. Neither
    click touches the hook's error, and each ends with the card not
    loading. *)
Theorem toggle_twice_restores
    (draw1 draw2 : Q) (now1 now2 : jsstring)
    (service : Service) (i : nat) (store : AppState) (h : HookState) :
  (MockApi.defaultChance <= draw1)%Q -> (MockApi.defaultChance <= draw2)%Q ->
  NoDup (map s_id (services store)) ->
  services store !! i = Some service ->
  let flipped := with_autoRenew service (negb (autoRenew service)) in
  let r1 := Services.handleToggleAutoRenew draw1 now1 service store store h in
  let r2 := Services.handleToggleAutoRenew draw2 now2 flipped
              (r1.1.1) (r1.1.1) (r1.1.2) in
  services (r1.1.1) = <[i:=flipped]> (services store) /\
  r1.2 = false /\
  r2.1.1 = store /\ r2.1.2 = h /\ r2.2 = false.
Proof.
  intros Hd1 Hd2 Hnd Hi flipped r1 r2.
  assert (H1 : r1 = (appReducer store (UPDATE_SERVICE flipped), h, false)).
  { subst r1. unfold Services.handleToggleAutoRenew,
      Services.handleToggleAutoRenew_on, useServices.toggleAutoRenew_on,
      MockApi.toggleAutoRenew, MockApi.toggleAutoRenew_at,
      MockApi.simulateRequest.
    rewrite (shouldSimulateError_passes _ _ Hd1). cbn [success].
    rewrite (find_by_unique_id _ _ _ Hnd Hi). reflexivity. }
  assert (Hs1 : services (r1.1.1) = <[i:=flipped]> (services store)).
  { rewrite H1. simpl. apply (update_unique _ i service flipped); auto. }
  assert (Hi1 : services (r1.1.1) !! i = Some flipped).
  { rewrite Hs1. apply list_lookup_insert_eq.
    apply lookup_lt_Some in Hi. exact Hi. }
  assert (Hnd1 : NoDup (map s_id (services (r1.1.1)))).
  { rewrite Hs1, (insert_keeps_ids _ i service flipped); auto. }
  assert (Hback : with_autoRenew flipped (negb (autoRenew flipped)) = service).
  { subst flipped. simpl. rewrite negb_involutive.
    apply with_autoRenew_back. }
  assert (H2 : r2 = (appReducer (r1.1.1) (UPDATE_SERVICE service),
                     r1.1.2, false)).
  { subst r2. unfold Services.handleToggleAutoRenew,
      Services.handleToggleAutoRenew_on, useServices.toggleAutoRenew_on,
      MockApi.toggleAutoRenew, MockApi.toggleAutoRenew_at,
      MockApi.simulateRequest.
    rewrite (shouldSimulateError_passes _ _ Hd2). cbn [success].
    rewrite (find_by_unique_id _ _ _ Hnd1 Hi1), Hback. reflexivity. }
  split; [exact Hs1 |]. split; [rewrite H1; reflexivity |].
  rewrite H2. cbn [fst snd]. split; [| rewrite H1; split; reflexivity].
  assert (Hs2 : services (appReducer (r1.1.1) (UPDATE_SERVICE service))
                = services store).
  { simpl. rewrite (update_unique _ i flipped service Hnd1 Hi1 eq_refl).
    rewrite Hs1, list_insert_insert_eq. apply list_insert_id. exact Hi. }
  rewrite H1 in Hs2 |- *. cbn [fst snd] in Hs2 |- *.
  destruct store as [u ns c ss ts ld er]. simpl in *.
  f_equal. exact Hs2.
Qed.

Lemma toggle_twice_restores_witness :
  let service := mockService_at 1 in
  let r1 := Services.handleToggleAutoRenew (1 # 2) (lit "t1") service
              loadedStore loadedStore idle in
  (Services.handleToggleAutoRenew (3 # 4) (lit "t2")
     (with_autoRenew service (negb (autoRenew service)))
     (r1.1.1) (r1.1.1) (r1.1.2)).1.1 = loadedStore /\
  autoRenew <$> services (r1.1.1) !! 1 = Some true /\
  autoRenew service = false.
Proof.
  intros service r1.
  assert (Hd1 : (MockApi.defaultChance <= 1 # 2)%Q) by (unfold Qle; simpl; lia).
  assert (Hd2 : (MockApi.defaultChance <= 3 # 4)%Q) by (unfold Qle; simpl; lia).
  assert (Hnd : NoDup (map s_id (services loadedStore))).
  { apply (bool_decide_unpack _). vm_compute. exact I. }
  destruct (toggle_twice_restores (1 # 2) (3 # 4) (lit "t1") (lit "t2")
              service 1 loadedStore idle Hd1 Hd2 Hnd eq_refl)
    as (_ & _ & Hback & _).
  split; [exact Hback |]. split; reflexivity.
Defined.

Ltac endpoint_returns H :=
  unfold MockApi.login_at, MockApi.getProfile_at, MockApi.updateProfile_at,
    MockApi.getServices_at, MockApi.toggleAutoRenew_at,
    MockApi.getSupportTickets_at, MockApi.createSupportTicket_at,
    MockApi.getNotifications_at, MockApi.getInvoices_at,
    MockApi.getPaymentMethods_at, MockApi.getDnsRecords_at;
  rewrite H; unfold MockApi.simulateRequest.

(** X12. With failure probability 0 no endpoint ever rejects, whatever the
    draw in [[0,1)]: every call returns, with [success: true] for all but a
    login with a pair other than the demo one. *)
Theorem zero_chance_never_fails (draw : Q) :
  (0 <= draw)%Q -> (draw < 1)%Q ->
  (forall nowMs e p,
      exists r, MockApi.login_at 0 draw nowMs e p = Returned r) /\
  (exists r, MockApi.getProfile_at 0 draw = Returned r /\ success r = true) /\
  (forall now profileData,
      exists r, MockApi.updateProfile_at 0 draw now profileData = Returned r
                /\ success r = true) /\
  (exists r, MockApi.getServices_at 0 draw = Returned r /\ success r = true) /\
  (forall now id flag,
      exists r, MockApi.toggleAutoRenew_at 0 draw now id flag = Returned r
                /\ success r = true) /\
  (exists r, MockApi.getSupportTickets_at 0 draw = Returned r
             /\ success r = true) /\
  (forall randomId now1 now2 now3 ticketData,
      exists r, MockApi.createSupportTicket_at 0 draw randomId now1 now2 now3
                  ticketData = Returned r /\ success r = true) /\
  (exists r, MockApi.getNotifications_at 0 draw = Returned r
             /\ success r = true) /\
  (exists r, MockApi.getInvoices_at 0 draw = Returned r /\ success r = true) /\
  (exists r, MockApi.getPaymentMethods_at 0 draw = Returned r
             /\ success r = true) /\
  (forall id,
      exists r, MockApi.getDnsRecords_at 0 draw id = Returned r
                /\ success r = true).
Proof.
  intros Hge _.
  pose proof (shouldSimulateError_passes draw 0 Hge) as H.
  split.
  { intros nowMs e p. endpoint_returns H.
    destruct (bool_decide _ && bool_decide _); eexists; reflexivity. }
  repeat match goal with |- _ /\ _ => split end; intros;
    endpoint_returns H; eexists; split; reflexivity.
Qed.

Lemma zero_chance_never_fails_witness :
  exists r, MockApi.getServices_at 0 0 = Returned r /\ success r = true.
Proof.
  assert (H0 : (0 <= 0)%Q) by (unfold Qle; simpl; lia).
  assert (H1 : (0 < 1)%Q) by (unfold Qlt; simpl; lia).
  exact (proj1 (proj2 (proj2 (proj2 (zero_chance_never_fails 0 H0 H1))))).
Defined.

(** ** Further properties of the login page and of the routes *)

Section LoginPageFacts.
Import Login.

(** X13. The sign-in button does nothing while the email or the password
    is empty or a login is in progress; otherwise a click runs the login
    handler. *)
Theorem sign_in_needs_both_fields
    (page : State) (store : AppState) (location : jsstring) :
  (formEmail page = [] \/ formPassword page = [] \/ l_loading page = true ->
   signInClick (page, store, location) = (page, store, location)) /\
  (formEmail page <> [] -> formPassword page <> [] ->
   l_loading page = false ->
   signInClick (page, store, location) = handleLogin page store location).
Proof.
  unfold signInClick, Button.handleClick, signInDisabled. cbn [fst snd].
  split.
  - intros [H | [H | H]]; rewrite H; simpl;
      rewrite ?orb_true_r, ?andb_false_r; reflexivity.
  - intros He Hp Hl. rewrite Hl.
    destruct (formEmail page); [contradiction |].
    destruct (formPassword page); [contradiction |]. reflexivity.
Qed.

Lemma sign_in_needs_both_fields_witness :
  let page := {| formEmail := lit "john.doe@example.com"; formPassword := [];
                 l_loading := false; l_error := [] |} in
  signInClick (page, initialState, lit "/login")
  = (page, initialState, lit "/login").
Proof.
  intros page.
  apply (proj1 (sign_in_needs_both_fields page initialState (lit "/login"))).
  right. left. reflexivity.
Defined.

(** X14. Typing into the email and the password field stores both values
    (in either order, whatever the form held before) and clears the error
    message. After typing the demo pair a click on the sign-in button, when
    no login is in progress, sets the user and routes to the dashboard. *)
Theorem typing_then_sign_in
    (page : State) (e p : jsstring) (store : AppState) (location : jsstring) :
  let typed :=
    handleFieldChange (lit "password") p
      (handleFieldChange (lit "email") e page) in
  (formEmail typed = e /\ formPassword typed = p /\ l_error typed = [] /\
   l_loading typed = l_loading page) /\
  typed = handleFieldChange (lit "email") e
            (handleFieldChange (lit "password") p page) /\
  (e = lit "john.doe@example.com" -> p = lit "password123" ->
   l_loading page = false ->
   let r := signInClick (typed, store, location) in
   currentUser (r.1.2) = Some mockUser /\ r.2 = lit "/dashboard" /\
   l_error (r.1.1) = [] /\ l_loading (r.1.1) = false).
Proof.
  intros typed. subst typed. unfold handleFieldChange. simpl.
  split; [| split].
  - destruct (l_error page) as [| c m]; simpl; repeat split; reflexivity.
  - destruct (l_error page) as [| c m]; reflexivity.
  - intros -> -> Hl.
    destruct (l_error page) as [| c m]; simpl;
      unfold signInClick, Button.handleClick, signInDisabled; simpl;
      rewrite Hl; simpl; repeat split; reflexivity.
Qed.

Lemma typing_then_sign_in_witness :
  let page := {| formEmail := lit "jane@example.com";
                 formPassword := lit "secret"; l_loading := false;
                 l_error := lit "Invalid email or password. Please try again." |} in
  let typed :=
    handleFieldChange (lit "password") (lit "password123")
      (handleFieldChange (lit "email") (lit "john.doe@example.com") page) in
  l_error typed = [] /\
  (signInClick (typed, initialState, lit "/login")).2 = lit "/dashboard".
Proof.
  intros page typed.
  destruct (typing_then_sign_in page (lit "john.doe@example.com")
              (lit "password123") initialState (lit "/login"))
    as ((_ & _ & Herr & _) & _ & Hlogin).
  split; [exact Herr |].
  exact (proj1 (proj2 (Hlogin eq_refl eq_refl eq_refl))).
Defined.

End LoginPageFacts.

Section RouteFacts.
Import App.

(** X15. From each path of the route table, following the redirects
    always ends on a rendered page, after at most two redirects. Without a
    user every such path ends on the login page at /login; with a user none
    ends on the login page: / and /login end on the dashboard, every other
    one renders its own page. *)
Theorem route_guards (state : AppState) (path : Path) :
  exists (final : Path) (page : Page),
    settle 3 state path = Some (final, page) /\
    (currentUser state = None -> final = LoginPath /\ page = LoginPage) /\
    (currentUser state <> None ->
     page <> LoginPage /\
     (path = Root \/ path = LoginPath ->
      final = DashboardPath /\ page = DashboardPage) /\
     (path <> Root -> path <> LoginPath -> final = path)).
Proof.
  destruct (currentUser state) as [u |] eqn:Hu;
    destruct path; simpl; unfold ProtectedRoute, PublicRoute; rewrite ?Hu;
    simpl; unfold ProtectedRoute, PublicRoute; rewrite ?Hu; simpl;
    unfold ProtectedRoute, PublicRoute; rewrite ?Hu;
    eexists _, _; (split; [reflexivity |]);
    (split; [intros H; try discriminate H; split; reflexivity |]);
    intros H; try (exfalso; apply H; reflexivity);
    (split; [discriminate |]);
    (split; [intros [H' | H']; try discriminate H'; split; reflexivity |]);
    intros H1 H2; try reflexivity; try (exfalso; apply H1; reflexivity);
    try (exfalso; apply H2; reflexivity).
Qed.

Lemma route_guards_witness :
  settle 3 initialState Root = Some (LoginPath, LoginPage) /\
  settle 3 loadedStore LoginPath = Some (DashboardPath, DashboardPage) /\
  settle 3 loadedStore BillingPath = Some (BillingPath, BillingPage).
Proof.
  destruct (route_guards initialState Root) as (f1 & p1 & H1 & Hnone & _).
  destruct (Hnone eq_refl) as [-> ->].
  destruct (route_guards loadedStore LoginPath)
    as (f2 & p2 & H2 & _ & Hsome).
  destruct (Hsome ltac:(discriminate)) as (_ & Hdash & _).
  destruct (Hdash (or_intror eq_refl)) as [-> ->].
  split; [exact H1 |]. split; [exact H2 | reflexivity].
Defined.

(** X16. Logging in and out agree with the route guards. After a login
    with the demo pair the location is /dashboard and the dashboard is
    rendered there. After a login of a visitor with any other pair the
    location is unchanged and the login page is still rendered. After the
    profile page's logout the location is /login, the login page is
    rendered there, and the store holds no user, no notifications (counter
    0), no services and no tickets. *)
Theorem login_and_logout_land_on_their_pages
    (page : Login.State) (store : AppState) (location : jsstring) :
  let demo := Login.formEmail page = lit "john.doe@example.com" /\
              Login.formPassword page = lit "password123" in
  let r := Login.handleLogin page store location in
  let out := Pages.handleLogout store location in
  (demo ->
   r.2 = href DashboardPath /\
   settle 3 (r.1.2) DashboardPath = Some (DashboardPath, DashboardPage)) /\
  (~ demo -> currentUser store = None ->
   r.2 = location /\
   settle 3 (r.1.2) LoginPath = Some (LoginPath, LoginPage)) /\
  (out.2 = href LoginPath /\
   settle 3 (out.1) LoginPath = Some (LoginPath, LoginPage) /\
   currentUser (out.1) = None /\ notifications (out.1) = [] /\
   unreadNotificationCount (out.1) = 0 /\ services (out.1) = [] /\
   supportTickets (out.1) = [] /\
   loading (out.1) = loading store /\ error (out.1) = error store).
Proof.
  intros demo r out. subst r out. unfold Login.handleLogin.
  cbn [Login.formEmail Login.formPassword].
  split; [| split].
  - intros [-> ->]. simpl. split; reflexivity.
  - intros Hn Hu.
    assert (Hb : bool_decide (Login.formEmail page = lit "john.doe@example.com")
                 && bool_decide (Login.formPassword page = lit "password123")
                 = false).
    { apply andb_false_iff.
      destruct (decide (Login.formEmail page = lit "john.doe@example.com"))
        as [He | He].
      - right. apply bool_decide_eq_false. intros Hp. apply Hn.
        split; assumption.
      - left. apply bool_decide_eq_false. exact He. }
    rewrite Hb. cbn [fst snd]. split; [reflexivity |].
    simpl. unfold PublicRoute. rewrite Hu. reflexivity.
  - repeat split; reflexivity.
Qed.

Lemma login_and_logout_land_on_their_pages_witness :
  let page := {| Login.formEmail := lit "john.doe@example.com";
                 Login.formPassword := lit "password123";
                 Login.l_loading := false; Login.l_error := [] |} in
  let r := Login.handleLogin page initialState (lit "/login") in
  settle 3 (r.1.2) DashboardPath = Some (DashboardPath, DashboardPage) /\
  settle 3 ((Pages.handleLogout (r.1.2) (r.2)).1) DashboardPath
  = Some (LoginPath, LoginPage).
Proof.
  intros page r.
  destruct (login_and_logout_land_on_their_pages page initialState
              (lit "/login")) as (Hin & _ & _).
  split; [exact (proj2 (Hin (conj eq_refl eq_refl))) | reflexivity].
Defined.

End RouteFacts.

(** ** Support page *)

Section SupportFacts.
Import Support.

Lemma blank_iff (f : FormData) :
  blank f = true <->
  Forall (fun c => isWhiteSpace c = true) (f_subject f) \/
  Forall (fun c => isWhiteSpace c = true) (f_body f).
Proof.
  unfold blank. rewrite orb_true_iff, !negb_true_iff.
  rewrite <- !trim_nil_iff.
  destruct (trim (f_subject f)), (trim (f_body f)); simpl;
    intuition congruence.
Qed.

(** X17. The ticket form submits nothing while the subject or the body is
    empty or white space only: no call is made and form, page, store and
    hook stay as they are. Otherwise, when the call fails the form stays
    open, the tickets are unchanged and the hook holds the error; when it
    succeeds the form is closed and the tickets gain, in front, one ticket
    with the category, subject and body of the form. Either way the form
    is no longer submitting. *)
Theorem ticket_form_submit
    (draw : Q) (randomId now1 now2 now3 randomId2 now4 now5 : jsstring)
    (form : FormState) (showCreateForm : bool)
    (store : AppState) (h : HookState) :
  let r := handleSubmit draw randomId now1 now2 now3 randomId2 now4 now5
             form showCreateForm store h in
  let isBlank :=
    Forall (fun c => isWhiteSpace c = true) (f_subject (formData form)) \/
    Forall (fun c => isWhiteSpace c = true) (f_body (formData form)) in
  (isBlank -> r = (form, showCreateForm, store, h)) /\
  (~ isBlank -> (draw < MockApi.defaultChance)%Q ->
   r.1.1.2 = showCreateForm /\ r.1.2 = store /\
   h_error (r.2) = Some (lit "Failed to create support ticket") /\
   formData (r.1.1.1) = formData form /\ isSubmitting (r.1.1.1) = false) /\
  (~ isBlank -> (MockApi.defaultChance <= draw)%Q ->
   r.1.1.2 = false /\ h_error (r.2) = None /\
   isSubmitting (r.1.1.1) = false /\
   exists stored,
     supportTickets (r.1.2) = stored :: supportTickets store /\
     category stored = f_category (formData form) /\
     subject stored = f_subject (formData form) /\
     body stored = f_body (formData form) /\
     t_status stored = lit "open").
Proof.
  intros r isBlank. subst r isBlank. unfold handleSubmit, handleSubmit_on.
  rewrite <- blank_iff. destruct (blank (formData form)) eqn:Hb.
  - split; [reflexivity |]. split; intros Hn; exfalso; apply Hn; reflexivity.
  - split; [discriminate |].
    unfold useSupportTickets.createTicket_on, MockApi.createSupportTicket,
      MockApi.createSupportTicket_at, MockApi.simulateError,
      MockApi.simulateRequest.
    split; intros _ Hd.
    + rewrite (shouldSimulateError_fires _ _ Hd). simpl.
      repeat split; reflexivity.
    + rewrite (shouldSimulateError_passes _ _ Hd). simpl.
      repeat split. eexists. repeat split; reflexivity.
Qed.

Lemma ticket_form_submit_witness :
  let filled :=
    {| formData := {| f_category := lit "Technical";
                      f_subject := lit "Cannot reach site";
                      f_body := lit "   "; f_priority := lit "medium" |};
       isSubmitting := false |} in
  handleSubmit (1 # 2) (lit "K3X9Q") (lit "t1") (lit "t2") (lit "t3")
    (lit "f81hq02zk") (lit "t4") (lit "t5") filled true loadedStore idle
  = (filled, true, loadedStore, idle).
Proof.
  intros filled.
  apply (proj1 (ticket_form_submit (1 # 2) (lit "K3X9Q") (lit "t1") (lit "t2")
                  (lit "t3") (lit "f81hq02zk") (lit "t4") (lit "t5")
                  filled true loadedStore idle)).
  right. repeat constructor.
Defined.

(** The counts accumulated from [acc] on. *)
Lemma ticketCounts_fold (tickets : list SupportTicket)
    (acc : gmap jsstring nat) (key : jsstring) :
  default 0
    (fold_left
       (fun acc ticket =>
          <[t_status ticket := default 0 (acc !! t_status ticket) + 1]> acc)
       tickets acc !! key)
  = default 0 (acc !! key)
    + length (List.filter (fun t => bool_decide (t_status t = key)) tickets).
Proof.
  revert acc. induction tickets as [| t tickets IH]; intros acc; simpl.
  - lia.
  - rewrite IH. destruct (decide (t_status t = key)) as [He | Hne].
    + rewrite (bool_decide_eq_true_2 _ He), He, lookup_insert_eq. simpl. lia.
    + rewrite (bool_decide_eq_false_2 _ Hne), lookup_insert_ne by exact Hne.
      reflexivity.
Qed.

Lemma filter_key (key : jsstring) (tickets : list SupportTicket) :
  key <> lit "all" ->
  filteredTickets key tickets
  = List.filter (fun t => bool_decide (t_status t = key)) tickets.
Proof.
  intros Hk. unfold filteredTickets. apply filter_ext. intros t.
  rewrite (bool_decide_eq_false_2 _ Hk). reflexivity.
Qed.

Lemma filter_cons_length {A : Type} (f : A -> bool) (x : A) (l : list A) :
  length (List.filter f (x :: l))
  = (if f x then 1 else 0) + length (List.filter f l).
Proof. simpl. destruct (f x); reflexivity. Qed.

(** X18. The count a status tab shows is the number of tickets listed
    under that tab, the "all" tab lists every ticket, and the badge of the
    Support navigation item is the count of the "open" tab. For tickets
    whose status is one of the four declared ones, the four status counts
    add up to the number of tickets. *)
Theorem ticket_tabs_agree (tickets : list SupportTicket) :
  (forall key, key <> lit "all" ->
     tabCount tickets key = length (filteredTickets key tickets)) /\
  filteredTickets (lit "all") tickets = tickets /\
  supportBadge tickets = tabCount tickets (lit "open") /\
  (Forall (fun t => t_status t = lit "open" \/ t_status t = lit "in-progress"
                    \/ t_status t = lit "resolved"
                    \/ t_status t = lit "closed") tickets ->
   tabCount tickets (lit "open") + tabCount tickets (lit "in-progress")
   + tabCount tickets (lit "resolved") + tabCount tickets (lit "closed")
   = length tickets).
Proof.
  assert (Hcount : forall key,
            tabCount tickets key
            = length (List.filter (fun t => bool_decide (t_status t = key))
                        tickets)).
  { intros key. unfold tabCount, ticketCounts.
    rewrite ticketCounts_fold, lookup_empty. reflexivity. }
  split; [intros key Hk; rewrite Hcount, (filter_key key tickets Hk);
          reflexivity |].
  split.
  { clear Hcount. unfold filteredTickets.
    induction tickets as [| t l IH]; simpl; [reflexivity |].
    f_equal. exact IH. }
  split; [rewrite Hcount; reflexivity |].
  intros Hst. rewrite !Hcount. clear Hcount.
  induction Hst as [| t l Ht _ IH]; [reflexivity |].
  rewrite !filter_cons_length. cbn [length].
  destruct Ht as [-> | [-> | [-> | ->]]];
    repeat match goal with
    | |- context [bool_decide (?a = ?b)] =>
        first [ rewrite (bool_decide_eq_true_2 (a = b)) by reflexivity
              | rewrite (bool_decide_eq_false_2 (a = b)) by discriminate ]
    end; cbv beta iota; lia.
Qed.

Lemma ticket_tabs_agree_witness :
  tabCount (sampleTicket :: MockApi.mockTickets) (lit "open") = 1 /\
  tabCount (sampleTicket :: MockApi.mockTickets) (lit "open")
  + tabCount (sampleTicket :: MockApi.mockTickets) (lit "in-progress")
  + tabCount (sampleTicket :: MockApi.mockTickets) (lit "resolved")
  + tabCount (sampleTicket :: MockApi.mockTickets) (lit "closed") = 3.
Proof.
  destruct (ticket_tabs_agree (sampleTicket :: MockApi.mockTickets))
    as (Htab & _ & _ & Hsum).
  split.
  - rewrite Htab by discriminate. reflexivity.
  - apply Hsum. unfold MockApi.mockTickets.
    constructor; [right; right; right; reflexivity |].
    constructor; [left; reflexivity |].
    constructor; [right; right; left; reflexivity |].
    constructor.
Defined.

End SupportFacts.

(** ** Navigation bar *)

Lemma countUnread_zero (l : list Notification) :
  countUnread l = 0 <-> Forall (fun n => read n = true) l.
Proof.
  induction l as [| n l IH]; simpl.
  - split; [constructor | reflexivity].
  - destruct (read n) eqn:Hr; simpl.
    + rewrite IH. split; [constructor; assumption |].
      intros H. inversion H; assumption.
    + split; [discriminate |]. intros H. inversion H; congruence.
Qed.

(** X19. In a state whose counter is right, the bell shows no badge and
    the plain label "Notifications" exactly when every notification is
    read; it shows a badge with the number of unread notifications while
    that is at most 99, and "99+" above. *)
Theorem bell_shows_unread_count (state : AppState) :
  invariant state ->
  let n := Z.of_nat (countUnread (notifications state)) in
  let count := Some (Z.of_nat (unreadNotificationCount state)) in
  (NavigationBar.notificationBadge count = NavigationBar.Nothing <->
   Forall (fun n => read n = true) (notifications state)) /\
  (NavigationBar.ariaLabel count = lit "Notifications" <->
   Forall (fun n => read n = true) (notifications state)) /\
  (0 < n <= 99 ->
   NavigationBar.notificationBadge count = NavigationBar.BadgeSpan (ofZ n))%Z /\
  (99 < n ->
   NavigationBar.notificationBadge count
   = NavigationBar.BadgeSpan (lit "99+"))%Z.
Proof.
  intros Hinv n count. subst n count. rewrite Hinv.
  rewrite <- countUnread_zero.
  unfold NavigationBar.notificationBadge, NavigationBar.ariaLabel.
  cbv beta iota zeta delta [default from_option id].
  generalize (countUnread (notifications state)). intros c.
  destruct (Z.ltb_spec 0 (Z.of_nat c)) as [Hpos | Hzero].
  - split; [split; [intros H; discriminate H | lia] |]. split.
    + split; [| lia]. intros H. exfalso.
      apply (f_equal (@length N)) in H. rewrite !length_app in H.
      cbn [length lit] in H. lia.
    + destruct (Z.ltb_spec 99 (Z.of_nat c)); split; intros; try lia;
        reflexivity.
  - split; [split; [lia | reflexivity] |]. split.
    + split; [lia | intros _; apply app_nil_r].
    + split; intros; lia.
Qed.

Lemma bell_shows_unread_count_witness :
  let state := appReducer initialState
                 (SET_NOTIFICATIONS MockApi.mockNotifications) in
  NavigationBar.notificationBadge
    (Some (Z.of_nat (unreadNotificationCount state)))
  = NavigationBar.BadgeSpan (lit "2") /\
  NavigationBar.ariaLabel (Some (Z.of_nat (unreadNotificationCount state)))
  = lit "Notifications (2 unread)".
Proof.
  intros state.
  destruct (bell_shows_unread_count state eq_refl) as (_ & _ & Hsmall & _).
  split; [| reflexivity]. apply Hsmall. simpl. lia.
Defined.

(** X20. The badge of the Support navigation item is the number of open
    tickets. With no open ticket the item does not drop the badge: the
    guard [item.badge && ...] evaluates to the number 0, which is rendered
    as a bare "0" beside the label. With open tickets the badge span shows
    their number, "99+" above 99. An item without a badge shows nothing. *)
Theorem support_badge_rendering (tickets : list SupportTicket) :
  let n := Support.supportBadge tickets in
  let shown := NavigationBar.itemBadge (Some (Z.of_nat n)) in
  (Forall (fun t => t_status t <> lit "open") tickets ->
   shown = NavigationBar.Text (lit "0")) /\
  (0 < n <= 99 -> shown = NavigationBar.BadgeSpan (ofZ (Z.of_nat n))) /\
  (99 < n -> shown = NavigationBar.BadgeSpan (lit "99+")) /\
  shown <> NavigationBar.Nothing /\
  NavigationBar.itemBadge None = NavigationBar.Nothing.
Proof.
  intros n shown. subst shown. unfold NavigationBar.itemBadge.
  split; [| split; [| split; [| split; [| reflexivity]]]].
  - intros Hnone. replace n with 0; [reflexivity |].
    subst n. unfold Support.supportBadge.
    induction Hnone as [| t l Ht _ IH]; simpl; [reflexivity |].
    rewrite (bool_decide_eq_false_2 _ Ht). exact IH.
  - intros H.
    replace (Z.of_nat n =? 0)%Z with false by (symmetry; apply Z.eqb_neq; lia).
    replace (0 <? Z.of_nat n)%Z with true by (symmetry; apply Z.ltb_lt; lia).
    replace (99 <? Z.of_nat n)%Z with false by (symmetry; apply Z.ltb_ge; lia).
    reflexivity.
  - intros H.
    replace (Z.of_nat n =? 0)%Z with false by (symmetry; apply Z.eqb_neq; lia).
    replace (0 <? Z.of_nat n)%Z with true by (symmetry; apply Z.ltb_lt; lia).
    replace (99 <? Z.of_nat n)%Z with true by (symmetry; apply Z.ltb_lt; lia).
    reflexivity.
  - destruct (Z.of_nat n =? 0)%Z eqn:H0; [discriminate |].
    apply Z.eqb_neq in H0.
    replace (0 <? Z.of_nat n)%Z with true by (symmetry; apply Z.ltb_lt; lia).
    discriminate.
Qed.

Lemma support_badge_rendering_witness :
  NavigationBar.itemBadge
    (Some (Z.of_nat (Support.supportBadge [sampleTicket])))
  = NavigationBar.Text (lit "0") /\
  NavigationBar.itemBadge
    (Some (Z.of_nat (Support.supportBadge MockApi.mockTickets)))
  = NavigationBar.BadgeSpan (lit "1").
Proof.
  destruct (support_badge_rendering [sampleTicket]) as (Hzero & _).
  destruct (support_badge_rendering MockApi.mockTickets) as (_ & Hsmall & _).
  split.
  - apply Hzero. repeat constructor. intros H. discriminate H.
  - apply Hsmall.
    assert (Support.supportBadge MockApi.mockTickets = 1) as -> by reflexivity.
    lia.
Defined.

(** ** Patterns: the matcher decides the language *)

Section RegExpFacts.
Import RegExp.

Lemma matches_never (s : jsstring) : ~ matches Never s.
Proof. intros H. inversion H. Qed.

Lemma matches_empty (s : jsstring) : matches Empty s <-> s = [].
Proof.
  split; [intros H; inversion H; reflexivity | intros ->; constructor].
Qed.

Lemma matches_class (p : N -> bool) (s : jsstring) :
  matches (Class p) s <-> exists c, s = [c] /\ p c = true.
Proof.
  split.
  - intros H. inversion H; subst. eexists; split; [reflexivity | assumption].
  - intros (c & -> & Hc). constructor. exact Hc.
Qed.

Lemma matches_seq (r1 r2 : regex) (s : jsstring) :
  matches (Seq r1 r2) s <->
  exists s1 s2, s = s1 ++ s2 /\ matches r1 s1 /\ matches r2 s2.
Proof.
  split.
  - intros H. inversion H; subst. eauto.
  - intros (s1 & s2 & -> & H1 & H2). constructor; assumption.
Qed.

Lemma matches_or (r1 r2 : regex) (s : jsstring) :
  matches (Or r1 r2) s <-> matches r1 s \/ matches r2 s.
Proof.
  split.
  - intros H. inversion H; subst; auto.
  - intros [H | H]; [apply MOrL | apply MOrR]; exact H.
Qed.

Lemma matches_star_cons (r : regex) (c : N) (s : jsstring) :
  matches (Star r) (c :: s) ->
  exists s1 s2, s = s1 ++ s2 /\ matches r (c :: s1) /\ matches (Star r) s2.
Proof.
  intros H. remember (Star r) as q eqn:Hq. remember (c :: s) as t eqn:Ht.
  revert c s Ht.
  induction H as [| | | | | | r' s1 s2 H1 _ H2 IH2]; try discriminate Hq.
  - intros c s Ht. discriminate Ht.
  - injection Hq as ->. intros c s Ht.
    destruct s1 as [| c1 s1]; simpl in Ht.
    + apply (IH2 eq_refl). exact Ht.
    + injection Ht as <- <-. eauto.
Qed.

Lemma nullable_matches (r : regex) : nullable r = true <-> matches r [].
Proof.
  induction r as [| | p | r1 IH1 r2 IH2 | r1 IH1 r2 IH2 | r IH]; simpl.
  - split; [discriminate | intros H; inversion H].
  - split; [constructor | reflexivity].
  - split; [discriminate | intros H; inversion H].
  - rewrite andb_true_iff, IH1, IH2, matches_seq. split.
    + intros [H1 H2]. exists [], []. auto.
    + intros (s1 & s2 & Hs & H1 & H2). symmetry in Hs.
      apply app_eq_nil in Hs as [-> ->]. auto.
  - rewrite orb_true_iff, IH1, IH2, matches_or. reflexivity.
  - split; [constructor | reflexivity].
Qed.

Lemma deriv_matches (r : regex) (c : N) (s : jsstring) :
  matches (deriv c r) s <-> matches r (c :: s).
Proof.
  revert s.
  induction r as [| | p | r1 IH1 r2 IH2 | r1 IH1 r2 IH2 | r IH]; intros s;
    simpl.
  - split; intros H; inversion H.
  - split; intros H; inversion H.
  - rewrite matches_class. destruct (p c) eqn:Hp.
    + rewrite matches_empty. split.
      * intros ->. eauto.
      * intros (c' & [= <- ->] & _). reflexivity.
    + split; [intros H; inversion H |].
      intros (c' & [= <- ->] & H). congruence.
  - rewrite (matches_seq r1 r2). split.
    + destruct (nullable r1) eqn:Hn.
      * rewrite matches_or, matches_seq.
        intros [(s1 & s2 & -> & H1 & H2) | H].
        -- exists (c :: s1), s2. rewrite <- IH1. auto.
        -- exists [], (c :: s). rewrite <- nullable_matches, <- IH2. auto.
      * rewrite matches_seq. intros (s1 & s2 & -> & H1 & H2).
        exists (c :: s1), s2. rewrite <- IH1. auto.
    + intros (s1 & s2 & Hs & H1 & H2). destruct s1 as [| c1 s1]; simpl in Hs.
      * subst s2. apply nullable_matches in H1. rewrite H1.
        apply MOrR. apply IH2. exact H2.
      * injection Hs as <- ->. apply IH1 in H1.
        destruct (nullable r1); [apply MOrL |]; constructor; assumption.
  - rewrite !matches_or, IH1, IH2. reflexivity.
  - rewrite matches_seq. split.
    + intros (s1 & s2 & -> & H1 & H2). apply IH in H1.
      apply (MStarApp r (c :: s1) s2); assumption.
    + intros H. apply matches_star_cons in H as (s1 & s2 & -> & H1 & H2).
      exists s1, s2. rewrite IH. auto.
Qed.

Lemma test_matches (r : regex) (s : jsstring) :
  test r s = true <-> matches r s.
Proof.
  unfold test. revert r. induction s as [| c s IH]; intros r; simpl.
  - apply nullable_matches.
  - rewrite IH. apply deriv_matches.
Qed.

Lemma matches_star_class (p : N -> bool) (s : jsstring) :
  matches (Star (Class p)) s <-> Forall (fun x => p x = true) s.
Proof.
  split.
  - induction s as [| c s IH]; intros H; [constructor |].
    apply matches_star_cons in H as (s1 & s2 & -> & H1 & H2).
    apply matches_class in H1 as (c' & [= <- ->] & Hc).
    constructor; [exact Hc | apply IH; exact H2].
  - induction 1 as [| c s Hc _ IH]; [constructor |].
    apply (MStarApp (Class p) [c] s); [constructor; exact Hc | exact IH].
Qed.

Lemma matches_plus_class (p : N -> bool) (s : jsstring) :
  matches (plus (Class p)) s <-> s <> [] /\ Forall (fun x => p x = true) s.
Proof.
  unfold plus. rewrite matches_seq. split.
  - intros (s1 & s2 & -> & H1 & H2).
    apply matches_class in H1 as (c & -> & Hc).
    apply matches_star_class in H2.
    split; [discriminate | constructor; assumption].
  - intros [Hs H]. destruct H as [| c s Hc H]; [contradiction |].
    exists [c], s. split; [reflexivity |].
    split; [constructor; exact Hc | apply matches_star_class; exact H].
Qed.

Lemma matches_char (c : N) (s : jsstring) : matches (char c) s <-> s = [c].
Proof.
  unfold char. rewrite matches_class. split.
  - intros (c' & -> & Hc). apply N.eqb_eq in Hc as ->. reflexivity.
  - intros ->. exists c. split; [reflexivity | apply N.eqb_refl].
Qed.

Lemma matches_upTo_class (p : N -> bool) (n : nat) (s : jsstring) :
  matches (upTo n (Class p)) s <->
  Forall (fun x => p x = true) s /\ length s <= n.
Proof.
  revert s. induction n as [| n IH]; intros s; simpl.
  - rewrite matches_empty. split.
    + intros ->. split; [constructor | reflexivity].
    + intros [_ H]. destruct s; [reflexivity | simpl in H; lia].
  - unfold optional. rewrite matches_or, matches_empty, matches_seq. split.
    + intros [-> | (s1 & s2 & -> & H1 & H2)].
      * split; [constructor | simpl; lia].
      * apply matches_class in H1 as (c & -> & Hc).
        apply IH in H2 as [H2 Hl].
        split; [constructor; assumption | simpl; lia].
    + intros [H Hl]. destruct H as [| c s Hc H]; [left; reflexivity |].
      right. exists [c], s. split; [reflexivity |].
      split; [constructor; exact Hc |]. apply IH.
      split; [exact H | simpl in Hl; lia].
Qed.

Lemma emailPattern_shape (s : jsstring) :
  matches emailPattern s <-> emailShape s.
Proof.
  unfold emailPattern, emailShape. split.
  - intros H.
    apply matches_seq in H as (a & t1 & -> & Ha & H).
    apply matches_seq in H as (x & t2 & -> & Hx & H).
    apply matches_seq in H as (b & t3 & -> & Hb & H).
    apply matches_seq in H as (y & c & -> & Hy & Hc).
    apply matches_char in Hx as ->. apply matches_char in Hy as ->.
    apply matches_plus_class in Ha as [Ha Fa].
    apply matches_plus_class in Hb as [Hb Fb].
    apply matches_plus_class in Hc as [Hc Fc].
    exists a, b, c. repeat split; try assumption.
    apply Forall_app; split; [exact Fa |].
    apply Forall_app; split; assumption.
  - intros (a & b & c & -> & Ha & Hb & Hc & F).
    apply Forall_app in F as [Fa F]. apply Forall_app in F as [Fb Fc].
    apply MSeq; [apply matches_plus_class; auto |].
    apply MSeq; [apply matches_char; reflexivity |].
    apply MSeq; [apply matches_plus_class; auto |].
    apply MSeq; [apply matches_char; reflexivity |].
    apply matches_plus_class; auto.
Qed.

Lemma phonePattern_shape (s : jsstring) :
  matches phonePattern s <-> phoneShape s.
Proof.
  unfold phonePattern, phoneShape, optional. split.
  - intros H.
    apply matches_seq in H as (x & t & -> & Hx & H).
    apply matches_seq in H as (y & ds & -> & Hy & Hds).
    apply matches_class in Hy as (d & -> & Hd).
    apply matches_upTo_class in Hds as [F Hl].
    exists d, ds. repeat split; try assumption.
    apply matches_or in Hx as [Hx | Hx].
    + apply matches_empty in Hx as ->. left. reflexivity.
    + apply matches_char in Hx as ->. right. reflexivity.
  - intros (d & ds & Hs & Hd & F & Hl).
    assert (Htail : matches (Seq (Class digit19) (upTo 15 (Class digit)))
                      (d :: ds)).
    { apply (MSeq _ _ [d] ds); [constructor; exact Hd |].
      apply matches_upTo_class. auto. }
    destruct Hs as [-> | ->].
    + apply (MSeq _ _ [] (d :: ds)); [| exact Htail].
      apply MOrL. constructor.
    + apply (MSeq _ _ [43%N] (d :: ds)); [| exact Htail].
      apply MOrR. apply matches_char. reflexivity.
Qed.

(** An address of the email shape holds no white space, so it is not
    blank. *)
Lemma emailShape_not_blank (s : jsstring) :
  emailShape s -> truthy (trim s) = true /\ s <> [].
Proof.
  intros (a & b & c & -> & Ha & _ & _ & F).
  destruct a as [| x a]; [contradiction |]. split; [| discriminate].
  inversion F as [| ? ? Hx _]; subst.
  unfold notSpaceNorAt in Hx. apply andb_true_iff in Hx as [Hx _].
  apply negb_true_iff in Hx.
  destruct (trim ((x :: a) ++ [64%N] ++ b ++ [46%N] ++ c)) eqn:Ht;
    [| reflexivity].
  apply trim_nil_iff in Ht. inversion Ht as [| ? ? Hw _]; subst.
  congruence.
Qed.

End RegExpFacts.

(** ** Validation of the email address and of the profile form *)

Section ValidationFacts.
Import RegExp FormField Profile.

Lemma not_blank_iff (s : jsstring) :
  truthy (trim s) = true <-> ~ whitespaceOnly s.
Proof.
  unfold whitespaceOnly. rewrite <- trim_nil_iff.
  destruct (trim s); simpl; split; congruence.
Qed.

Lemma email_accepted_iff (s : jsstring) :
  truthy (trim s) && test emailPattern s = true <-> emailShape s.
Proof.
  rewrite andb_true_iff, test_matches, emailPattern_shape. split.
  - intros [_ H]. exact H.
  - intros H. split; [apply emailShape_not_blank; exact H | exact H].
Qed.

Lemma phone_accepted_iff (s : jsstring) :
  truthy s && negb (test phonePattern (stripPhone s)) = false <->
  s = [] \/ phoneShape (stripPhone s).
Proof.
  rewrite andb_false_iff, negb_false_iff, test_matches, phonePattern_shape.
  destruct s as [| c s]; simpl truthy; split; auto.
  - intros [H | H]; [discriminate H | auto].
  - intros [H | H]; [discriminate H | auto].
Qed.

Lemma validateForm_accepts (f : ProfileFormData) :
  (validateForm f).2 = true <->
  ~ whitespaceOnly (p_name f) /\ emailShape (p_email f) /\
  (p_phone f = [] \/ phoneShape (stripPhone (p_phone f))).
Proof.
  rewrite <- not_blank_iff, <- email_accepted_iff, <- phone_accepted_iff.
  unfold validateForm. cbv zeta.
  destruct (truthy (trim (p_name f))), (truthy (trim (p_email f))),
    (test emailPattern (p_email f)),
    (truthy (p_phone f) && negb (test phonePattern (stripPhone (p_phone f))));
    vm_compute; intuition discriminate.
Qed.

(** X22. The email field of the login form accepts a value exactly when it
    has the form local@domain.tld: three non-empty parts without white space
    or "@", separated by an "@" and a later ".". A blank value gets the
    message "Email address is required", any other rejected value "Email
    address format is invalid". *)
Theorem email_field_validation (w v : jsstring) (error : option jsstring) :
  (validate (emailField w error) v = [] <-> emailShape v) /\
  (whitespaceOnly v ->
   validate (emailField w error) v = lit "Email address is required") /\
  (~ whitespaceOnly v -> ~ emailShape v ->
   validate (emailField w error) v = lit "Email address format is invalid").
Proof.
  unfold validate. cbn [validationRules emailField required minLength
    maxLength pattern custom truthyBool labelOrName label name].
  rewrite <- (email_accepted_iff v). pose proof (not_blank_iff v) as Hnb.
  destruct (truthy (trim v)) eqn:Ht; simpl.
  - assert (Hv : truthy v = true).
    { destruct v; [discriminate Ht | reflexivity]. }
    rewrite Hv. simpl.
    assert (Hw : ~ whitespaceOnly v) by (apply Hnb; reflexivity).
    destruct (test emailPattern v); simpl.
    + split; [tauto |]. split; [intros H; contradiction |].
      intros _ H. exfalso. apply H. reflexivity.
    + split; [split; discriminate |].
      split; [intros H; contradiction | reflexivity].
  - split; [split; discriminate |].
    split; [reflexivity |]. intros H. apply Hnb in H. discriminate H.
Qed.

Lemma email_field_validation_witness :
  validate (emailField [] None) (lit "john.doe@example.com") = [] /\
  validate (emailField [] None) (lit " ") = lit "Email address is required" /\
  validate (emailField [] None) (lit "john.doe@example")
  = lit "Email address format is invalid".
Proof.
  destruct (email_field_validation [] (lit "john.doe@example.com") None)
    as (Hok & _ & _).
  destruct (email_field_validation [] (lit " ") None) as (_ & Hblank & _).
  split; [| split; [| reflexivity]].
  - apply (proj2 Hok).
    exists (lit "john.doe"), (lit "example"), (lit "com").
    split; [reflexivity |].
    split; [discriminate |]. split; [discriminate |].
    split; [discriminate |].
    repeat constructor.
  - apply Hblank. repeat constructor.
Defined.

(** X23. The profile form is accepted exactly when it has no errors, and
    that is exactly when the name is not blank, the email has the form
    local@domain.tld, and the phone is empty or, without its blanks and
    hyphens, an optional "+", a digit from 1 to 9 and at most fifteen
    further digits. Each field has an error exactly when its own condition
    fails, and the form accepts exactly the email addresses that the email
    field of the login form accepts. *)
Theorem profile_form_validation (f : ProfileFormData) :
  let errors := (validateForm f).1 in
  let valid := (validateForm f).2 in
  (valid = true <-> errors = ∅) /\
  (valid = true <->
   ~ whitespaceOnly (p_name f) /\ emailShape (p_email f) /\
   (p_phone f = [] \/ phoneShape (stripPhone (p_phone f)))) /\
  (errors !! lit "name" = None <-> ~ whitespaceOnly (p_name f)) /\
  (errors !! lit "email" = None <-> emailShape (p_email f)) /\
  (errors !! lit "phone" = None <->
   p_phone f = [] \/ phoneShape (stripPhone (p_phone f))) /\
  (errors !! lit "email" = None <->
   validate (emailField (p_email f) (errors !! lit "email")) (p_email f)
   = []).
Proof.
  intros errors valid.
  split; [| split; [apply validateForm_accepts |]].
  { subst errors valid. unfold validateForm. cbv zeta. cbn [fst snd].
    rewrite bool_decide_eq_true. apply map_size_empty_iff. }
  assert (He : validate (emailField (p_email f) (errors !! lit "email"))
                 (p_email f) = [] <-> emailShape (p_email f)).
  { unfold validate. cbn [validationRules emailField required minLength
      maxLength pattern custom truthyBool labelOrName label name].
    rewrite <- email_accepted_iff.
    destruct (truthy (trim (p_email f))) eqn:Ht; simpl;
      [| split; discriminate].
    assert (Hv : truthy (p_email f) = true).
    { destruct (p_email f); [discriminate Ht | reflexivity]. }
    rewrite Hv. destruct (test emailPattern (p_email f)); simpl;
      [tauto | split; discriminate]. }
  rewrite He. clear He.
  rewrite <- not_blank_iff, <- email_accepted_iff, <- phone_accepted_iff.
  subst errors valid. unfold validateForm. cbv zeta. cbn [fst snd].
  destruct (truthy (trim (p_name f))), (truthy (trim (p_email f))),
    (test emailPattern (p_email f)),
    (truthy (p_phone f) && negb (test phonePattern (stripPhone (p_phone f))));
    vm_compute; intuition discriminate.
Qed.

Lemma profile_form_validation_witness :
  let f := {| p_name := lit "John Doe"; p_email := lit "john.doe@example";
              p_phone := lit "+1 555-123-4567"; p_company := [];
              p_billingAddress :=
                {| b_street := []; b_city := []; b_state := [];
                   b_zipCode := []; b_country := lit "US" |} |} in
  (validateForm f).2 = false /\
  (validateForm f).1 !! lit "phone" = None.
Proof.
  intros f.
  destruct (profile_form_validation f) as (_ & _ & _ & _ & Hphone & _).
  split; [reflexivity |].
  apply (proj2 Hphone). right.
  exists 49%N, (lit "5551234567"). split; [right; reflexivity |].
  split; [reflexivity |]. split; [repeat constructor | simpl; lia].
Defined.

(** X24. Saving the profile form. A form that fails validation never
    reaches the API: store and hook are untouched, the page keeps its
    editing mode and shows the errors. A valid form is sent with no errors
    shown. When the call returns, the editing mode is closed: with success
    the returned user becomes the current user and the hook has no error,
    without success the store is unchanged and the hook's error is "Failed
    to update profile". When the call throws, the store is unchanged, the
    hook carries the thrown message and the page stays in its editing
    mode. After a valid save neither the page nor the hook is still
    loading. *)
Theorem profile_save
    (api : Outcome (Response User)) (page : PageState)
    (store : AppState) (h : HookState) :
  let f := formData page in
  let ok := ~ whitespaceOnly (p_name f) /\ emailShape (p_email f) /\
            (p_phone f = [] \/ phoneShape (stripPhone (p_phone f))) in
  let r := handleSave (saveWith api) page (store, h) in
  formData r.1 = f /\
  (~ ok ->
   r.2 = (store, h) /\ isEditing r.1 = isEditing page /\
   isSaving r.1 = isSaving page /\ formErrors r.1 <> ∅) /\
  (ok ->
   formErrors r.1 = ∅ /\ isSaving r.1 = false /\
   h_loading r.2.2 = false /\
   match api with
   | Returned response =>
       isEditing r.1 = false /\
       (success response = true ->
        currentUser r.2.1 = Some (data response) /\
        h_error r.2.2 = None) /\
       (success response = false ->
        r.2.1 = store /\
        h_error r.2.2 = Some (lit "Failed to update profile"))
   | Threw m =>
       isEditing r.1 = isEditing page /\ r.2.1 = store /\
       h_error r.2.2 = Some m
   end).
Proof.
  intros f ok r. subst f ok r.
  rewrite <- validateForm_accepts.
  unfold handleSave.
  destruct (validateForm (formData page)) as [errors valid] eqn:Hv.
  assert (Hempty : valid = true <-> errors = ∅).
  { unfold validateForm in Hv. cbv zeta in Hv. injection Hv as <- <-.
    rewrite bool_decide_eq_true. apply map_size_empty_iff. }
  unfold saveWith, useProfile.updateProfile_on. cbn [fst snd].
  destruct valid; simpl.
  - split; [destruct api as [response | m]; [destruct (success response) |];
            reflexivity |].
    split; [intros H; exfalso; apply H; reflexivity |]. intros _.
    assert (errors = ∅) as -> by (apply Hempty; reflexivity).
    destruct api as [response | m]; [destruct (success response) eqn:Hs |];
      simpl; repeat split; try reflexivity; try discriminate;
      intros Hd; discriminate Hd.
  - split; [reflexivity |]. split; [| intros H; discriminate H].
    intros _. repeat split. intros H. apply Hempty in H. discriminate H.
Qed.

Lemma profile_save_witness :
  let f := {| p_name := lit "John Doe"; p_email := lit "john.doe@example";
              p_phone := []; p_company := [];
              p_billingAddress :=
                {| b_street := []; b_city := []; b_state := [];
                   b_zipCode := []; b_country := lit "US" |} |} in
  let page := {| formData := f; formErrors := ∅; isEditing := true;
                 isSaving := false |} in
  (handleSave (saveWith (Threw (lit "Network error"))) page
     (loadedStore, idle)).2 = (loadedStore, idle).
Proof.
  intros f page.
  destruct (profile_save (Threw (lit "Network error")) page loadedStore idle)
    as (_ & Hbad & _).
  apply Hbad. intros (_ & He & _).
  apply email_accepted_iff in He. vm_compute in He. discriminate He.
Defined.

End ValidationFacts.
